(** * OpenLKAS: lane-centre estimation, drift classification and alerting

    A shallow embedding of the per-frame pipeline of OpenLKAS
    ([utils.py], [lane_detector.py], [audio_alert.py], [main.py]).

    Python's [float] arithmetic is kept behind the interface [Arith], so
    that every function is written once, the way the source writes it, and
    can be run both on exact rationals ([Q]) and on IEEE-754 binary64
    ([PrimFloat.float], the arithmetic CPython and NumPy really use). *)

From Stdlib Require Import ZArith QArith Qabs Qpower List Permutation Bool.
From Stdlib Require Import Lia Lqa PrimFloat.
Import ListNotations.

Set Implicit Arguments.

(** ** The arithmetic the source relies on *)

Class Arith (F : Type) : Type := {
  add : F -> F -> F;
  sub : F -> F -> F;
  mul : F -> F -> F;
  div : F -> F -> F;
  absF : F -> F;            (* abs(x) *)
  ltb : F -> F -> bool;     (* x < y *)
  of_Z : Z -> F;            (* int -> float conversion *)
  truthy : F -> bool        (* bool(x), i.e. x != 0 *)
}.

Declare Scope num_scope.
Delimit Scope num_scope with num.
Notation "a + b" := (add a b) : num_scope.
Notation "a - b" := (sub a b) : num_scope.
Notation "a * b" := (mul a b) : num_scope.
Notation "a / b" := (div a b) : num_scope.
Notation "a <? b" := (ltb a b) : num_scope.
Notation "a >? b" := (ltb b a) : num_scope.

(** Exact rational arithmetic. *)
Definition Qltb (a b : Q) : bool := negb (Qle_bool b a).

#[export] Instance Q_Arith : Arith Q := {|
  add := Qplus; sub := Qminus; mul := Qmult; div := Qdiv;
  absF := Qabs; ltb := Qltb; of_Z := inject_Z;
  truthy := fun x => negb (Qeq_bool x 0)
|}.

(** IEEE-754 binary64.  Integers are converted bit by bit; every partial
    result is an integer, hence exact below 2^53. *)
Fixpoint float_of_pos (p : positive) : float :=
  match p with
  | xH => 1%float
  | xO q => PrimFloat.mul 2%float (float_of_pos q)
  | xI q => PrimFloat.add (PrimFloat.mul 2%float (float_of_pos q)) 1%float
  end.

Definition float_of_Z (z : Z) : float :=
  match z with
  | Z0 => 0%float
  | Zpos p => float_of_pos p
  | Zneg p => PrimFloat.opp (float_of_pos p)
  end.

#[export] Instance Float_Arith : Arith float := {|
  add := PrimFloat.add; sub := PrimFloat.sub;
  mul := PrimFloat.mul; div := PrimFloat.div;
  absF := PrimFloat.abs; ltb := PrimFloat.ltb; of_Z := float_of_Z;
  truthy := fun x => negb (PrimFloat.eqb x 0%float)
|}.

(** ** Data model *)

(** One entry of the array returned by [cv2.HoughLinesP]: integer pixel
    coordinates [x1, y1, x2, y2] (the source unpacks [line[0]]). *)
Record Line : Type := mkLine { x1 : Z; y1 : Z; x2 : Z; y2 : Z }.

(** The slope used by [calculate_lane_center]: a float, or the sentinel
    [float('inf')] of a vertical segment. *)
Inductive Slope (F : Type) : Type :=
| Fin (s : F)
| Inf.
Arguments Inf {F}.

(** The commands [LaneDepartureAlert] sends to its [AudioAlert] sink. *)
Inductive Command (F : Type) : Type :=
| play_beep (force : bool)
| play_continuous_alert (duration : F)
| stop_continuous_alert.
Arguments play_beep {F} force.
Arguments stop_continuous_alert {F}.

(** A captured frame, as far as the pipeline looks at it: its width
    ([frame.shape]), what the OpenCV steps 1-4 of [detect_lanes] produce on
    it ([None]: one of them raised; [Some None]: [HoughLinesP] found
    nothing and returned [None]), and whether drawing the overlays
    raises. *)
Record Frame : Type := mkFrame {
  shape_width : Z;
  hough_lines : option (option (list Line));
  overlay_raises : bool
}.

Section Pipeline.

Context {F : Type} {A : Arith F}.
Local Open Scope num_scope.

(** Numeric literals of the source. *)
Definition lit (n : Z) : F := of_Z n.
Definition dec (n d : Z) : F := of_Z n / of_Z d.   (* n/d, e.g. 0.7 *)

(** *** utils.py *)

Definition calculate_center_offset (lane_center image_center : F) : F :=
  lane_center - image_center.

Definition is_lane_departure (offset threshold : F) : bool :=
  absF offset >? threshold.

(** [slope = (y2 - y1) / (x2 - x1) if x2 != x1 else float('inf')] *)
Definition slope_of (l : Line) : Slope F :=
  if (x2 l =? x1 l)%Z then Inf
  else Fin (of_Z (y2 l - y1 l) / of_Z (x2 l - x1 l)).

(** [abs], [<] and [>] on a slope that may be the infinite sentinel. *)
Definition slope_abs (s : Slope F) : Slope F :=
  match s with Fin v => Fin (absF v) | Inf => Inf end.

Definition slope_ltb (s : Slope F) (c : F) : bool :=
  match s with Fin v => v <? c | Inf => false end.

Definition slope_gtb (s : Slope F) (c : F) : bool :=
  match s with Fin v => v >? c | Inf => true end.

(** Body of the [for line in lines] loop: [continue] on a filtered
    segment, else append to [left_lines] or [right_lines]. *)
Definition classify_step (acc : list Line * list Line) (l : Line)
  : list Line * list Line :=
  let slope := slope_of l in
  if slope_ltb (slope_abs slope) (dec 1 2) || slope_gtb (slope_abs slope) (lit 2)
  then acc
  else if slope_ltb slope (lit 0)
       then (fst acc ++ [l], snd acc)
       else (fst acc, snd acc ++ [l]).

Definition classify_lines (lines : list Line) : list Line * list Line :=
  fold_left classify_step lines ([], []).

(** [x_coords.extend([x1, x2])] over one side. *)
Fixpoint x_coords (ls : list Line) : list Z :=
  match ls with
  | [] => []
  | l :: rest => x1 l :: x2 l :: x_coords rest
  end.

Definition sumZ (xs : list Z) : Z := fold_right Z.add 0%Z xs.

(** [np.mean] of a list of integers: the float64 sum over the count. *)
Definition np_mean (xs : list Z) : F :=
  of_Z (sumZ xs) / of_Z (Z.of_nat (length xs)).

Definition side_center (side : list Line) : option F :=
  match side with
  | [] => None
  | _ => Some (np_mean (x_coords side))
  end.

Definition calculate_lane_center (lines : option (list Line)) (image_width : Z)
  : option F :=
  match lines with
  | None => None
  | Some [] => None
  | Some ls =>
      let (left_lines, right_lines) := classify_lines ls in
      let left_center := side_center left_lines in
      let right_center := side_center right_lines in
      match left_center, right_center with
      | Some lc, Some rc => Some ((lc + rc) / lit 2)
      | Some lc, None => Some (lc + lit 100)
      | None, Some rc => Some (rc - lit 100)
      | None, None => None
      end
  end.

(** *** lane_detector.py *)

(** The attributes of [LaneDetector] the drift computation reads or
    writes.  The OpenCV tuning parameters only feed the external steps
    whose outcome a [Frame] carries, and so does [roi_vertices], which
    [_apply_roi_mask] fills in with the default region on the first frame
    it gets to: none of them is part of this record, and what is said of
    a [LaneDetector] below is said of these three attributes. *)
Record LaneDetector : Type := mkLaneDetector {
  departure_threshold : F;
  last_lane_center : option F;
  smoothing_factor : F
}.

(** [LaneDetector.__init__] *)
Definition LaneDetector_init (threshold : F) : LaneDetector :=
  {| departure_threshold := threshold;
     last_lane_center := None;
     smoothing_factor := dec 7 10 |}.

(** The dictionary returned by [detect_lanes]. *)
Record Result : Type := mkResult {
  lines : option (list Line);
  lane_center : option F;
  image_center : option F;
  offset : F;
  off_lane : bool;
  processed_frame : option Frame
}.

(** [x if x else default] for an optional float [x]: [None] and [0.0]
    are both falsy. *)
Definition or_else (x : option F) (default : F) : F :=
  match x with
  | Some v => if truthy v then v else default
  | None => default
  end.

Definition _calculate_drift (self : LaneDetector) (frame : Frame)
    (lines : option (list Line)) : Result * LaneDetector :=
  let width := shape_width frame in
  let image_center := of_Z width / lit 2 in
  let lane_center :=
    match lines with
    | Some _ => calculate_lane_center lines width
    | None => None
    end in
  let lane_center :=
    match lane_center, last_lane_center self with
    | Some lc, Some last =>
        Some (smoothing_factor self * last
              + (lit 1 - smoothing_factor self) * lc)
    | _, _ => lane_center
    end in
  let '(lane_center, self) :=
    match lane_center with
    | Some lc =>
        (lc, {| departure_threshold := departure_threshold self;
                last_lane_center := Some lc;
                smoothing_factor := smoothing_factor self |})
    | None => (or_else (last_lane_center self) image_center, self)
    end in
  let offset := calculate_center_offset lane_center image_center in
  let off_lane := is_lane_departure offset (departure_threshold self) in
  ({| lines := lines;
      lane_center := Some lane_center;
      image_center := Some image_center;
      offset := offset;
      off_lane := off_lane;
      processed_frame := None |}, self).

Definition _empty_result : Result :=
  {| lines := None;
     lane_center := None;
     image_center := None;
     offset := lit 0;
     off_lane := false;
     processed_frame := None |}.

(** [detect_lanes]: a [None] frame and any exception of the [try] block
    give [_empty_result()].  The overlays are drawn after
    [_calculate_drift] has already updated [self].  (A failure of the
    OpenCV steps may come after [_apply_roi_mask] has stored
    [roi_vertices], an attribute outside [LaneDetector].) *)
Definition detect_lanes (self : LaneDetector) (frame : option Frame)
  : Result * LaneDetector :=
  match frame with
  | None => (_empty_result, self)
  | Some fr =>
      match hough_lines fr with
      | None => (_empty_result, self)
      | Some lines =>
          let (result, self) := _calculate_drift self fr lines in
          if overlay_raises fr then (_empty_result, self)
          else ({| lines := lines;
                   lane_center := lane_center result;
                   image_center := image_center result;
                   offset := offset result;
                   off_lane := off_lane result;
                   processed_frame := Some fr |}, self)
      end
  end.

Definition update_threshold (self : LaneDetector) (new_threshold : F)
  : LaneDetector :=
  {| departure_threshold := new_threshold;
     last_lane_center := last_lane_center self;
     smoothing_factor := smoothing_factor self |}.

(** *** audio_alert.py *)

(** Python's two-argument [max] and [min]: the first argument wins
    unless the second is strictly larger (smaller). *)
Definition py_max (a b : F) : F := if b >? a then b else a.
Definition py_min (a b : F) : F := if b <? a then b else a.

(** Configuration of the [AudioAlert] sink. *)
Record AudioAlert : Type := mkAudioAlert {
  frequency : Z;
  duration : F;
  volume : F;
  alert_cooldown : F
}.

Definition AudioAlert_init (frequency : Z) (duration volume cooldown : F)
  : AudioAlert :=
  {| frequency := frequency;
     duration := duration;
     volume := py_max (lit 0) (py_min (lit 1) volume);
     alert_cooldown := cooldown |}.

Definition update_volume (self : AudioAlert) (new_volume : F) : AudioAlert :=
  {| frequency := frequency self;
     duration := duration self;
     volume := py_max (lit 0) (py_min (lit 1) new_volume);
     alert_cooldown := alert_cooldown self |}.

Definition update_frequency (self : AudioAlert) (new_frequency : Z)
  : AudioAlert :=
  {| frequency := Z.max 100 (Z.min 2000 new_frequency);
     duration := duration self;
     volume := volume self;
     alert_cooldown := alert_cooldown self |}.

Definition update_duration (self : AudioAlert) (new_duration : F)
  : AudioAlert :=
  {| frequency := frequency self;
     duration := py_max (dec 1 10) (py_min (lit 2) new_duration);
     volume := volume self;
     alert_cooldown := alert_cooldown self |}.

(** State of [LaneDepartureAlert]. *)
Record LaneDepartureAlert : Type := mkLaneDepartureAlert {
  last_departure_state : bool;
  departure_start_time : option F;
  continuous_alert_threshold : F
}.

Definition LaneDepartureAlert_init : LaneDepartureAlert :=
  {| last_departure_state := false;
     departure_start_time := None;
     continuous_alert_threshold := lit 2 |}.

(** [departure_start_time and current_time - departure_start_time > thr] *)
Definition escalation_due (self : LaneDepartureAlert) (current_time : F)
  : bool :=
  match departure_start_time self with
  | Some t0 =>
      truthy t0 && (current_time - t0 >? continuous_alert_threshold self)
  | None => false
  end.

(** [process_departure].  [current_time] is the value [time.time()]
    returns in this call; [thread_alive] is what the sink answers to
    [alert_thread and alert_thread.is_alive()].  The result lists the
    calls made on the sink, in order. *)
Definition process_departure (self : LaneDepartureAlert)
    (is_departing : bool) (current_time : F) (thread_alive : bool)
  : list (Command F) * LaneDepartureAlert :=
  let '(cmds, start_time) :=
    if is_departing then
      if negb (last_departure_state self) then
        ([play_beep false], Some current_time)
      else if escalation_due self current_time then
        if negb thread_alive
        then ([play_continuous_alert (lit 5)], departure_start_time self)
        else ([], departure_start_time self)
      else ([], departure_start_time self)
    else
      if last_departure_state self
      then ([stop_continuous_alert], None)
      else ([], departure_start_time self) in
  (cmds, {| last_departure_state := is_departing;
            departure_start_time := start_time;
            continuous_alert_threshold := continuous_alert_threshold self |}).

(** One observation of the alert machine per frame. *)
Record Obs : Type := mkObs {
  obs_off_lane : bool;
  obs_time : F;
  obs_alive : bool
}.

(** Drive the machine once per frame; the commands of each frame are
    kept apart. *)
Fixpoint drive (self : LaneDepartureAlert) (frames : list Obs)
  : list (list (Command F)) * LaneDepartureAlert :=
  match frames with
  | [] => ([], self)
  | o :: rest =>
      let (cmds, self) :=
        process_departure self (obs_off_lane o) (obs_time o) (obs_alive o) in
      let (more, self) := drive self rest in
      (cmds :: more, self)
  end.

(** *** main.py *)

Inductive Key : Type := KeyQ | KeyT | KeyV | KeyOther.

(** What one iteration of the [while self.running] loop takes from its
    environment. *)
Record Tick : Type := mkTick {
  ret : bool;                 (* camera.get_frame() *)
  frame : option Frame;
  now : F;                    (* time.time() in process_departure *)
  thread_alive : bool;        (* the sink's alert thread is running *)
  key : Key                   (* cv2.waitKey(1) & 0xFF *)
}.

Record OpenLKAS : Type := mkOpenLKAS {
  threshold : F;
  show_display : bool;
  lane_detector : LaneDetector;
  audio_alert : AudioAlert;
  departure_alert : LaneDepartureAlert;
  frame_count : Z
}.

Inductive Flow : Type := Continue | Break.

(** One iteration of the loop of [OpenLKAS.run]. *)
Definition run_iteration (self : OpenLKAS) (t : Tick)
  : Flow * list (Command F) * OpenLKAS :=
  if negb (ret t) then (Continue, [], self)
  else
    let (detection_result, detector) :=
      detect_lanes (lane_detector self) (frame t) in
    let (cmds, alert) :=
      process_departure (departure_alert self)
        (off_lane detection_result) (now t) (thread_alive t) in
    let self :=
      {| threshold := threshold self;
         show_display := show_display self;
         lane_detector := detector;
         audio_alert := audio_alert self;
         departure_alert := alert;
         frame_count := frame_count self + 1 |} in
    match show_display self, processed_frame detection_result with
    | true, Some _ =>
        match key t with
        | KeyQ => (Break, cmds, self)
        | KeyT =>
            let new_threshold :=
              if threshold self <? lit 100
              then threshold self + lit 10 else lit 20 in
            (Continue, cmds,
             {| threshold := new_threshold;
                show_display := show_display self;
                lane_detector :=
                  update_threshold (lane_detector self) new_threshold;
                audio_alert := audio_alert self;
                departure_alert := departure_alert self;
                frame_count := frame_count self |})
        | KeyV =>
            let new_volume :=
              if volume (audio_alert self) >? dec 1 2
              then lit 0 else dec 1 2 in
            (Continue, cmds,
             {| threshold := threshold self;
                show_display := show_display self;
                lane_detector := lane_detector self;
                audio_alert := update_volume (audio_alert self) new_volume;
                departure_alert := departure_alert self;
                frame_count := frame_count self |})
        | KeyOther => (Continue, cmds, self)
        end
    | _, _ => (Continue, cmds, self)
    end.

(** The loop over the inputs of successive iterations. *)
Fixpoint run_loop (self : OpenLKAS) (ticks : list Tick)
  : list (Command F) * OpenLKAS :=
  match ticks with
  | [] => ([], self)
  | t :: rest =>
      match run_iteration self t with
      | (Continue, cmds, self) =>
          let (more, self) := run_loop self rest in (cmds ++ more, self)
      | (Break, cmds, self) => (cmds, self)
      end
  end.

(** *** Derived notions used by the properties *)

(** The estimator in the words of the specification: segments whose
    absolute slope is below 0.5 or above 2.0 are discarded, the others go
    left on a negative slope and right otherwise. *)
Definition discarded (l : Line) : bool :=
  slope_ltb (slope_abs (slope_of l)) (dec 1 2)
  || slope_gtb (slope_abs (slope_of l)) (lit 2).

Definition is_left (l : Line) : bool :=
  negb (discarded l) && slope_ltb (slope_of l) (lit 0).

Definition is_right (l : Line) : bool :=
  negb (discarded l) && negb (slope_ltb (slope_of l) (lit 0)).

Definition lane_center_spec (ls : list Line) : option F :=
  match filter is_left ls, filter is_right ls with
  | [], [] => None
  | (_ :: _) as L, [] => Some (np_mean (x_coords L) + lit 100)
  | [], (_ :: _) as R => Some (np_mean (x_coords R) - lit 100)
  | L, R => Some ((np_mean (x_coords L) + np_mean (x_coords R)) / lit 2)
  end.

(** The invariant of the machine: a start time is held exactly while the
    last frame was a departure. *)
Definition alert_inv (a : LaneDepartureAlert) : Prop :=
  departure_start_time a <> None <-> last_departure_state a = true.

(** This frame's estimate, as [_calculate_drift] computes it first. *)
Definition new_estimate (frame : Frame) (lines : option (list Line))
  : option F :=
  match lines with
  | Some _ => calculate_lane_center lines (shape_width frame)
  | None => None
  end.

Definition frame_center (frame : Frame) : F :=
  of_Z (shape_width frame) / lit 2.

(** The blend of the previous accepted centre with the new estimate. *)
Definition blend (s previous new : F) : F :=
  s * previous + (lit 1 - s) * new.

(** The accepted centre of a frame and the detector it leaves behind. *)
Definition accepted_center (self : LaneDetector) (frame : Frame)
    (lines : option (list Line)) : F :=
  match new_estimate frame lines, last_lane_center self with
  | Some e, Some l => blend (smoothing_factor self) l e
  | Some e, None => e
  | None, l => or_else l (frame_center frame)
  end.

Definition next_detector (self : LaneDetector) (frame : Frame)
    (lines : option (list Line)) : LaneDetector :=
  match new_estimate frame lines with
  | Some _ =>
      mkLaneDetector (departure_threshold self)
        (Some (accepted_center self frame lines)) (smoothing_factor self)
  | None => self
  end.

(** The detector after a sequence of frames. *)
Fixpoint detect_all (self : LaneDetector) (frames : list (option Frame))
  : list Result * LaneDetector :=
  match frames with
  | [] => ([], self)
  | fr :: rest =>
      let (r, self) := detect_lanes self fr in
      let (rs, self) := detect_all self rest in
      (r :: rs, self)
  end.

(** [_calculate_drift] over successive frames and their lines. *)
Fixpoint drift_all (self : LaneDetector)
    (inputs : list (Frame * option (list Line)))
  : list Result * LaneDetector :=
  match inputs with
  | [] => ([], self)
  | (fr, ls) :: rest =>
      let (r, self) := _calculate_drift self fr ls in
      let (rs, self) := drift_all self rest in
      (r :: rs, self)
  end.

End Pipeline.

(** ** Rational slopes and sample inputs *)

(** The rational slope of a non-vertical segment. *)
Definition slopeQ (l : Line) : Q :=
  (inject_Z (y2 l - y1 l) / inject_Z (x2 l - x1 l))%Q.

(** The lines [detect_lanes] hands to [_calculate_drift]. *)
Definition hough_lines_of (fr : Frame) : option (list Line) :=
  match hough_lines fr with
  | Some lines => lines
  | None => None
  end.

(** Sample segments: a left boundary with endpoints at x = 250 and 350
    (slope -1) and a right boundary with endpoints at x = 650 and 750
    (slope 1). *)
Definition left_sample : Line := mkLine 250 400 350 300.
Definition right_sample : Line := mkLine 650 300 750 400.

(** A right boundary whose endpoints average to x = 100, so that the
    estimate [right_center - 100] is 0.0. *)
Definition frame_right_at_100 : Frame :=
  mkFrame 1280 (Some (Some [mkLine 50 0 150 100])) false.

(** A frame on which [HoughLinesP] finds nothing. *)
Definition frame_no_lines : Frame := mkFrame 1280 (Some None) false.

(** A frame on which one of the OpenCV steps raises. *)
Definition frame_cv_error : Frame := mkFrame 1280 None false.

(** Three left boundaries whose six endpoints average to 2104/6. *)
Definition three_left : list Line :=
  [mkLine 300 100 400 0; mkLine 300 100 400 0; mkLine 302 100 402 0].

Definition frame_three_left : Frame :=
  mkFrame 1280 (Some (Some three_left)) false.

(** The estimate of [frame_three_left] in binary64, 450.6666666666667. *)
Definition E_three_left : float :=
  PrimFloat.add (PrimFloat.div (float_of_Z 2104) (float_of_Z 6))
    (float_of_Z 100).

(** The system as [OpenLKAS.__init__] builds it with its defaults. *)
Definition OpenLKAS_init : OpenLKAS (F := float) :=
  {| threshold := lit 50;
     show_display := true;
     lane_detector := LaneDetector_init (lit 50);
     audio_alert := AudioAlert_init 800 (dec 3 10) (dec 1 2) (lit 1);
     departure_alert := LaneDepartureAlert_init;
     frame_count := 0 |}.

Definition failed_tick : Tick (F := float) :=
  mkTick false None (lit 1000) false KeyOther.

(** ** The alert sink at run time, and the camera *)

Section SinkModel.

Context {F : Type} {A : Arith F}.
Local Open Scope num_scope.

(** The attributes of [AudioAlert] that change while it runs.
    [alert_thread] tells whether a thread object has been stored in the
    attribute; whether that thread is still alive is up to the
    scheduler.  What the threads themselves do is not part of this
    state. *)
Record SinkState : Type := mkSinkState {
  is_initialized : bool;
  last_alert_time : F;
  alert_thread : bool;
  stop_alert : bool
}.

(** The state [AudioAlert.__init__] leaves, [pygame.mixer.init] having
    succeeded or raised. *)
Definition SinkState_init (mixer_ok : bool) : SinkState :=
  {| is_initialized := mixer_ok;
     last_alert_time := lit 0;
     alert_thread := false;
     stop_alert := false |}.

(** [AudioAlert.play_beep]; [current_time] is its [time.time()]. *)
Definition AudioAlert_play_beep (cfg : AudioAlert) (self : SinkState)
    (force : bool) (current_time : F) : bool * SinkState :=
  if negb (is_initialized self) then (false, self)
  else if negb force
          && (current_time - last_alert_time self <? alert_cooldown cfg)
  then (false, self)
  else (true, {| is_initialized := is_initialized self;
                 last_alert_time := current_time;
                 alert_thread := true;
                 stop_alert := stop_alert self |}).

(** [AudioAlert.play_continuous_alert], up to the start of its thread. *)
Definition AudioAlert_play_continuous_alert (self : SinkState) : SinkState :=
  if negb (is_initialized self) then self
  else {| is_initialized := is_initialized self;
          last_alert_time := last_alert_time self;
          alert_thread := true;
          stop_alert := false |}.

(** [AudioAlert.stop_continuous_alert] *)
Definition AudioAlert_stop_continuous_alert (self : SinkState) : SinkState :=
  {| is_initialized := is_initialized self;
     last_alert_time := last_alert_time self;
     alert_thread := alert_thread self;
     stop_alert := true |}.

(** [AudioAlert.cleanup] *)
Definition AudioAlert_cleanup (self : SinkState) : SinkState :=
  let self := AudioAlert_stop_continuous_alert self in
  if is_initialized self
  then {| is_initialized := false;
          last_alert_time := last_alert_time self;
          alert_thread := alert_thread self;
          stop_alert := stop_alert self |}
  else self.

(** The call a command stands for, made on the sink at time [now]. *)
Definition AudioAlert_execute (cfg : AudioAlert) (now : F)
    (self : SinkState) (c : Command F) : SinkState :=
  match c with
  | play_beep force => snd (AudioAlert_play_beep cfg self force now)
  | play_continuous_alert _ => AudioAlert_play_continuous_alert self
  | stop_continuous_alert => AudioAlert_stop_continuous_alert self
  end.

(** [process_departure] together with the sink it calls: the test
    [alert_thread and alert_thread.is_alive()] reads the sink's attribute
    ([obs_alive] is the scheduler's answer for the stored thread), and
    the calls are made on the sink, [sink_time] being the clock value a
    [play_beep] call reads for itself. *)
Definition process_departure_on_sink (cfg : AudioAlert)
    (self : LaneDepartureAlert) (sink : SinkState) (o : Obs) (sink_time : F)
  : list (Command F) * LaneDepartureAlert * SinkState :=
  let (cmds, self) :=
    process_departure self (obs_off_lane o) (obs_time o)
      (alert_thread sink && obs_alive o) in
  (cmds, self, fold_left (AudioAlert_execute cfg sink_time) cmds sink).

Fixpoint drive_on_sink (cfg : AudioAlert) (self : LaneDepartureAlert)
    (sink : SinkState) (frames : list (Obs * F))
  : list (list (Command F)) * LaneDepartureAlert * SinkState :=
  match frames with
  | [] => ([], self, sink)
  | (o, sink_time) :: rest =>
      let '(cmds, self, sink) :=
        process_departure_on_sink cfg self sink o sink_time in
      let '(more, self, sink) := drive_on_sink cfg self sink rest in
      (cmds :: more, self, sink)
  end.

(** The times at which a series of [play_beep()] calls (not forced)
    really beeps. *)
Fixpoint beep_times (cfg : AudioAlert) (self : SinkState) (times : list F)
  : list F :=
  match times with
  | [] => []
  | t :: rest =>
      let (played, self) := AudioAlert_play_beep cfg self false t in
      if played then t :: beep_times cfg self rest
      else beep_times cfg self rest
  end.

(** Successive times, the first counted from [previous], none of which
    comes within [cooldown] of the one before. *)
Fixpoint cooldown_separated (cooldown previous : F) (times : list F) : Prop :=
  match times with
  | [] => True
  | t :: rest =>
      (t - previous <? cooldown) = false
      /\ cooldown_separated cooldown t rest
  end.

(** Counting the commands of a run. *)
Definition is_beep (c : Command F) : bool :=
  match c with play_beep _ => true | _ => false end.

Definition is_continuous (c : Command F) : bool :=
  match c with play_continuous_alert _ => true | _ => false end.

Definition is_stop (c : Command F) : bool :=
  match c with stop_continuous_alert => true | _ => false end.

Definition count_commands (p : Command F -> bool)
    (run : list (list (Command F))) : nat :=
  length (filter p (concat run)).

(** A tick on which [run_iteration] reaches the key handling: the frame
    was captured, the display is on and [detect_lanes] delivered a
    processed frame. *)
Definition reads_key (self : OpenLKAS (F := F)) (t : Tick (F := F)) : bool :=
  ret t && show_display self
  && match frame t with
     | Some fr =>
         match hough_lines fr with
         | Some _ => negb (overlay_raises fr)
         | None => false
         end
     | None => false
     end.

End SinkModel.

(** A segment with its two endpoints exchanged. *)
Definition swap_endpoints (l : Line) : Line :=
  mkLine (x2 l) (y2 l) (x1 l) (y1 l).

(** *** camera_module.py *)

Module Camera.

(** [self.source]: ['live'], ['demo'], or any other string. *)
Inductive Source : Type := live | demo | other.

(** [cap] tells whether [self.cap] holds a capture object. *)
Record CameraModule : Type := mkCameraModule {
  source : Source;
  cap : bool;
  is_initialized : bool
}.

(** [get_frame].  [read1] is what [self.cap.read()] returns, [None] for
    [(False, None)]; [read2] is what it returns after the rewind to frame
    0, which only a demo source attempts. *)
Definition get_frame (self : CameraModule) (read1 read2 : option Frame)
  : bool * option Frame :=
  if negb (is_initialized self) || negb (cap self) then (false, None)
  else
    match read1 with
    | Some frame => (true, Some frame)
    | None =>
        match source self with
        | demo =>
            match read2 with
            | Some frame => (true, Some frame)
            | None => (false, None)
            end
        | _ => (false, None)
        end
    end.

(** [release] *)
Definition release (self : CameraModule) : CameraModule :=
  if cap self
  then {| source := source self; cap := false; is_initialized := false |}
  else self.

End Camera.

(** * Properties *)

(** ** Exact comparison on [Q] *)

Lemma Qltb_lt (a b : Q) : Qltb a b = true <-> (a < b)%Q.
Proof.
  unfold Qltb. rewrite negb_true_iff. split.
  - intros H. apply Qnot_le_lt. intros L.
    apply Qle_bool_iff in L. congruence.
  - intros H. destruct (Qle_bool b a) eqn:E; [|reflexivity].
    apply Qle_bool_iff in E. exfalso. exact (Qlt_not_le _ _ H E).
Qed.

Lemma Qltb_ge (a b : Q) : Qltb a b = false <-> (b <= a)%Q.
Proof.
  unfold Qltb. rewrite negb_false_iff. apply Qle_bool_iff.
Qed.

(** ** DepartureClassifier *)

(** C4.  [calculate_center_offset] is the difference of its arguments
    and [is_lane_departure] is the test [|offset| > threshold], on every
    arithmetic; both are total functions of their arguments alone.  On
    exact numbers the test holds exactly when the magnitude of the offset
    is strictly above the threshold, so a magnitude equal to the
    threshold is no departure.  The four sample values of the
    specification are checked on the rationals and on binary64. *)
Theorem C4_offset_and_strict_departure :
  (forall (F : Type) (A : Arith F) (x y : F),
      calculate_center_offset x y = (x - y)%num
      /\ is_lane_departure x y = (absF x >? y)%num)
  /\ (forall lc ic : Q, calculate_center_offset lc ic = (lc - ic)%Q)
  /\ (forall o t : Q, is_lane_departure o t = true <-> (t < Qabs o)%Q)
  /\ (forall o t : Q, Qabs o == t -> is_lane_departure o t = false)
  /\ (calculate_center_offset (100 : Q) 50 == 50
      /\ is_lane_departure (60 : Q) 50 = true
      /\ is_lane_departure (30 : Q) 50 = false
      /\ is_lane_departure (50 : Q) 50 = false)
  /\ (calculate_center_offset 100%float 50%float = 50%float
      /\ is_lane_departure 60%float 50%float = true
      /\ is_lane_departure 30%float 50%float = false
      /\ is_lane_departure 50%float 50%float = false).
Proof.
  split; [intros; split; reflexivity|].
  split; [reflexivity|].
  split; [intros o t; apply Qltb_lt|].
  split.
  - intros o t H. apply Qltb_ge. rewrite H. apply Qle_refl.
  - repeat split; reflexivity.
Qed.

Lemma C4_witness :
  Qabs (-50) == 50 /\ is_lane_departure (-50 : Q) 50 = false.
Proof.
  split; [reflexivity|].
  apply (proj1 (proj2 (proj2 (proj2 C4_offset_and_strict_departure))) (-50) 50).
  reflexivity.
Defined.

(** ** LaneCenterEstimator *)

Section EstimatorSpec.

Context {F : Type} {A : Arith F}.
Local Open Scope num_scope.

Lemma classify_step_cases (acc : list Line * list Line) (l : Line) :
  classify_step acc l =
    (fst acc ++ (if is_left l then [l] else []),
     snd acc ++ (if is_right l then [l] else [])).
Proof.
  unfold classify_step, is_left, is_right, discarded.
  destruct acc as [lft rgt]; cbn [fst snd].
  destruct (slope_ltb (slope_abs (slope_of l)) (dec 1 2)
            || slope_gtb (slope_abs (slope_of l)) (lit 2)); cbn.
  - now rewrite !app_nil_r.
  - destruct (slope_ltb (slope_of l) (lit 0)); cbn; now rewrite app_nil_r.
Qed.

Lemma fold_classify (ls : list Line) :
  forall acc,
    fold_left classify_step ls acc =
      (fst acc ++ filter is_left ls, snd acc ++ filter is_right ls).
Proof.
  induction ls as [|l rest IH]; intros [lft rgt]; cbn [fold_left filter fst snd].
  - now rewrite !app_nil_r.
  - rewrite IH, classify_step_cases. cbn [fst snd].
    rewrite <- !app_assoc.
    destruct (is_left l), (is_right l); reflexivity.
Qed.

Lemma classify_lines_filter (ls : list Line) :
  classify_lines ls = (filter is_left ls, filter is_right ls).
Proof. unfold classify_lines. now rewrite fold_classify. Qed.

Lemma calculate_lane_center_spec (ls : list Line) (w : Z) :
  calculate_lane_center (Some ls) w = lane_center_spec ls.
Proof.
  unfold calculate_lane_center, lane_center_spec.
  destruct ls as [|l rest]; [reflexivity|].
  rewrite classify_lines_filter.
  destruct (filter is_left (l :: rest)), (filter is_right (l :: rest));
    reflexivity.
Qed.

Lemma x_coords_length (ls : list Line) :
  length (x_coords ls) = (2 * length ls)%nat.
Proof. induction ls; cbn; lia. Qed.

Lemma x_coords_sum (ls : list Line) :
  sumZ (x_coords ls) = sumZ (map (fun l => (x1 l + x2 l)%Z) ls).
Proof. induction ls; cbn; [reflexivity|]. unfold sumZ in *. lia. Qed.

End EstimatorSpec.

Lemma discarded_Q (l : Line) :
  discarded (F := Q) l = true <->
  x2 l = x1 l \/ (Qabs (slopeQ l) < 1 # 2)%Q \/ (2 < Qabs (slopeQ l))%Q.
Proof.
  unfold discarded, slope_of, slopeQ.
  destruct (Z.eqb_spec (x2 l) (x1 l)) as [E|N]; cbn.
  - split; [intros _; now left | reflexivity].
  - rewrite orb_true_iff, !Qltb_lt. tauto.
Qed.

Lemma is_left_Q (l : Line) :
  is_left (F := Q) l = true <->
  discarded (F := Q) l = false /\ x2 l <> x1 l /\ (slopeQ l < 0)%Q.
Proof.
  unfold is_left. rewrite andb_true_iff, negb_true_iff.
  split.
  - intros [D S]. split; [exact D|].
    unfold slope_of, slopeQ in *.
    destruct (Z.eqb_spec (x2 l) (x1 l)) as [E|N]; cbn in S; [discriminate|].
    split; [exact N|]. now apply Qltb_lt in S.
  - intros [D [N S]]. split; [exact D|].
    unfold slope_of, slopeQ in *.
    destruct (Z.eqb_spec (x2 l) (x1 l)) as [E|_]; [contradiction|].
    cbn. now apply Qltb_lt.
Qed.

Lemma is_right_Q (l : Line) :
  is_right (F := Q) l = true <->
  discarded (F := Q) l = false /\ x2 l <> x1 l /\ (0 <= slopeQ l)%Q.
Proof.
  unfold is_right. rewrite andb_true_iff, !negb_true_iff.
  split.
  - intros [D S]. split; [exact D|].
    assert (N : x2 l <> x1 l).
    { intros E. apply not_true_iff_false in D. apply D.
      apply discarded_Q. now left. }
    split; [exact N|].
    unfold slope_of, slopeQ in *.
    destruct (Z.eqb_spec (x2 l) (x1 l)) as [E|_]; [contradiction|].
    cbn in S. now apply Qltb_ge in S.
  - intros [D [N S]]. split; [exact D|].
    unfold slope_of, slopeQ in *.
    destruct (Z.eqb_spec (x2 l) (x1 l)) as [E|_]; [contradiction|].
    cbn. now apply Qltb_ge.
Qed.

(** C1.  [calculate_lane_center] returns nothing on a missing or empty
    input; otherwise it drops the segments whose absolute slope is below
    0.5 or above 2.0 (a vertical segment counts as infinite), puts the
    others left on a negative and right on a non-negative slope, takes on
    each side the mean of all [x1] and [x2], and answers with the
    midpoint, [left + 100], [right - 100] or nothing.  A left mean of 300
    alone gives 400, a right mean of 700 alone gives 600, both give 500. *)
Theorem C1_lane_center_estimator :
  (forall (F : Type) (A : Arith F) (w : Z),
      calculate_lane_center (F := F) None w = None
      /\ calculate_lane_center (F := F) (Some []) w = None)
  /\ (forall (F : Type) (A : Arith F) (ls : list Line) (w : Z),
        let L := filter (is_left (F := F)) ls in
        let R := filter (is_right (F := F)) ls in
        calculate_lane_center (Some ls) w =
          match L, R with
          | [], [] => None
          | _ :: _, [] => Some (np_mean (x_coords L) + lit 100)%num
          | [], _ :: _ => Some (np_mean (x_coords R) - lit 100)%num
          | _ :: _, _ :: _ =>
              Some ((np_mean (x_coords L) + np_mean (x_coords R)) / lit 2)%num
          end)
  /\ (forall (F : Type) (A : Arith F) (side : list Line),
        np_mean (F := F) (x_coords side) =
          (of_Z (sumZ (map (fun l => (x1 l + x2 l)%Z) side))
           / of_Z (Z.of_nat (2 * length side)))%num)
  /\ (forall l : Line,
        (discarded (F := Q) l = true <->
           x2 l = x1 l \/ (Qabs (slopeQ l) < 1 # 2)%Q
           \/ (2 < Qabs (slopeQ l))%Q)
        /\ (is_left (F := Q) l = true <->
              discarded (F := Q) l = false /\ x2 l <> x1 l
              /\ (slopeQ l < 0)%Q)
        /\ (is_right (F := Q) l = true <->
              discarded (F := Q) l = false /\ x2 l <> x1 l
              /\ (0 <= slopeQ l)%Q))
  /\ (forall (ls : list Line) (w : Z),
        let L := filter (is_left (F := Q)) ls in
        let R := filter (is_right (F := Q)) ls in
        (L <> [] -> R = [] -> np_mean (F := Q) (x_coords L) == 300 ->
           exists c, calculate_lane_center (Some ls) w = Some c /\ c == 400)
        /\ (L = [] -> R <> [] -> np_mean (F := Q) (x_coords R) == 700 ->
              exists c, calculate_lane_center (Some ls) w = Some c /\ c == 600)
        /\ (L <> [] -> R <> [] ->
            np_mean (F := Q) (x_coords L) == 300 ->
            np_mean (F := Q) (x_coords R) == 700 ->
              exists c, calculate_lane_center (Some ls) w = Some c /\ c == 500))
  /\ (calculate_lane_center (Some [left_sample]) 1280 = Some 400%float
      /\ calculate_lane_center (Some [right_sample]) 1280 = Some 600%float
      /\ calculate_lane_center (Some [left_sample; right_sample]) 1280
         = Some 500%float).
Proof.
  split; [intros; split; reflexivity|].
  split.
  { intros F A ls w L R. subst L R.
    rewrite calculate_lane_center_spec. unfold lane_center_spec.
    destruct (filter is_left ls), (filter is_right ls); reflexivity. }
  split.
  { intros F A side. unfold np_mean.
    now rewrite x_coords_sum, x_coords_length. }
  split.
  { intros l. split; [apply discarded_Q|].
    split; [apply is_left_Q | apply is_right_Q]. }
  split.
  { intros ls w L R. subst L R.
    rewrite calculate_lane_center_spec. unfold lane_center_spec.
    destruct (filter is_left ls) as [|l0 L]; destruct (filter is_right ls) as [|r0 R].
    - repeat split; intros; congruence.
    - repeat split; intros; try congruence.
      eexists; split; [reflexivity|].
      change (np_mean (F := Q) (x_coords (r0 :: R)) - 100 == 600)%Q.
      match goal with H : _ == 700 |- _ => rewrite H end. reflexivity.
    - repeat split; intros; try congruence.
      eexists; split; [reflexivity|].
      change (np_mean (F := Q) (x_coords (l0 :: L)) + 100 == 400)%Q.
      match goal with H : _ == 300 |- _ => rewrite H end. reflexivity.
    - repeat split; intros; try congruence.
      eexists; split; [reflexivity|].
      change ((np_mean (F := Q) (x_coords (l0 :: L))
               + np_mean (F := Q) (x_coords (r0 :: R))) / 2 == 500)%Q.
      match goal with H : _ == 300 |- _ => rewrite H end.
      match goal with H : _ == 700 |- _ => rewrite H end. reflexivity. }
  repeat split; reflexivity.
Qed.

Lemma C1_witness :
  exists c : Q,
    calculate_lane_center (Some [left_sample]) 1280 = Some c /\ c == 400.
Proof.
  apply (proj1 (proj1 (proj2 (proj2 (proj2 (proj2 C1_lane_center_estimator))))
                 [left_sample] 1280%Z)).
  - discriminate.
  - reflexivity.
  - reflexivity.
Defined.

(** ** AlertStateMachine *)

Section AlertFacts.

Context {F : Type} {A : Arith F}.
Local Open Scope num_scope.

Lemma process_departure_last (a : LaneDepartureAlert) d t alive :
  last_departure_state (snd (process_departure a d t alive)) = d.
Proof.
  unfold process_departure.
  destruct d, (last_departure_state a), (escalation_due a t), alive;
    reflexivity.
Qed.

Lemma process_departure_threshold (a : LaneDepartureAlert) d t alive :
  continuous_alert_threshold (snd (process_departure a d t alive))
  = continuous_alert_threshold a.
Proof.
  unfold process_departure.
  destruct d, (last_departure_state a), (escalation_due a t), alive;
    reflexivity.
Qed.

Lemma process_departure_inv (a : LaneDepartureAlert) d t alive :
  alert_inv a -> alert_inv (snd (process_departure a d t alive)).
Proof.
  unfold alert_inv, process_departure. intros I.
  destruct d, (last_departure_state a) eqn:L, (escalation_due a t), alive;
    cbn; try tauto; split; (congruence || discriminate || tauto).
Qed.

Lemma drive_app (xs ys : list Obs) :
  forall a,
    drive a (xs ++ ys) =
      (fst (drive a xs) ++ fst (drive (snd (drive a xs)) ys),
       snd (drive (snd (drive a xs)) ys)).
Proof.
  induction xs as [|o xs IH]; intros a; cbn [app drive].
  - cbn. now destruct (drive a ys).
  - destruct (process_departure a (obs_off_lane o) (obs_time o) (obs_alive o))
      as [c a1].
    rewrite IH. destruct (drive a1 xs) as [c1 a2]. cbn [fst snd].
    destruct (drive a2 ys); reflexivity.
Qed.

Lemma drive_one (a : LaneDepartureAlert) (o : Obs (F := F)) :
  drive a [o] =
    ([fst (process_departure a (obs_off_lane o) (obs_time o) (obs_alive o))],
     snd (process_departure a (obs_off_lane o) (obs_time o) (obs_alive o))).
Proof.
  cbn. now destruct (process_departure _ _ _ _).
Qed.

Lemma drive_inv (frames : list Obs) :
  forall a, alert_inv a -> alert_inv (snd (drive a frames)).
Proof.
  induction frames as [|o rest IH]; intros a I; cbn [drive]; [exact I|].
  pose proof (process_departure_inv (obs_off_lane o) (obs_time o)
                (obs_alive o) I) as I1.
  destruct (process_departure a _ _ _) as [c a1]. cbn [snd] in I1.
  specialize (IH a1 I1). now destruct (drive a1 rest).
Qed.

Lemma last_default_irrelevant (X : Type) (l : list X) (d d' : X) :
  l <> [] -> last l d = last l d'.
Proof.
  induction l as [|x [|y l'] IH]; intros N; [congruence|reflexivity|].
  change (last (y :: l') d = last (y :: l') d'). apply IH. discriminate.
Qed.

Lemma drive_last (frames : list Obs) :
  forall a,
    last_departure_state (snd (drive a frames))
    = last (map (@obs_off_lane F) frames) (last_departure_state a).
Proof.
  induction frames as [|o rest IH]; intros a; [reflexivity|].
  cbn [drive].
  pose proof (process_departure_last a (obs_off_lane o) (obs_time o)
                (obs_alive o)) as L1.
  destruct (process_departure a _ _ _) as [c a1]. cbn [snd] in L1.
  specialize (IH a1). destruct (drive a1 rest) as [cs a2]. cbn [snd] in *.
  rewrite IH, L1. destruct rest as [|o' rest']; [reflexivity|].
  cbn [map].
  change (last (obs_off_lane o' :: map (@obs_off_lane F) rest') (obs_off_lane o)
          = last (obs_off_lane o' :: map (@obs_off_lane F) rest')
              (last_departure_state a)).
  apply last_default_irrelevant. discriminate.
Qed.

(** While the departure lasts, a frame on which the escalation test
    fails, or on which the sink's alert thread is still alive, leaves the
    machine where it is and issues nothing. *)
Lemma drive_quiet (t0 thr : F) (mid : list Obs) :
  Forall (fun o => obs_off_lane o = true
                   /\ ((obs_time o - t0 >? thr) = false
                       \/ obs_alive o = true)) mid ->
  drive (mkLaneDepartureAlert true (Some t0) thr) mid =
    (map (fun _ => []) mid, mkLaneDepartureAlert true (Some t0) thr).
Proof.
  induction 1 as [|o rest [D H] _ IH]; [reflexivity|].
  cbn [drive map].
  assert (P : process_departure (mkLaneDepartureAlert true (Some t0) thr)
                (obs_off_lane o) (obs_time o) (obs_alive o)
              = ([], mkLaneDepartureAlert true (Some t0) thr)).
  { unfold process_departure, escalation_due.
    cbn [last_departure_state departure_start_time continuous_alert_threshold].
    rewrite D. cbn [negb].
    destruct H as [Q | AL].
    - rewrite Q, andb_false_r. reflexivity.
    - rewrite AL. cbn [negb].
      destruct (truthy t0 && (obs_time o - t0 >? thr)); reflexivity. }
  rewrite P, IH. reflexivity.
Qed.

(** C2.  Starting from a frame without departure, a run of frames that
    departs at [t0], stays off-lane on frames where either no more than
    2.0 s have passed since [t0] or an alert thread is still alive, then
    is seen off-lane more than 2.0 s after [t0] with no alert thread
    alive, and finally returns to the lane, issues exactly: one
    [play_beep()] on the first frame (recording [t0]), nothing on the
    frames in between, one [play_continuous_alert(5.0)], and one
    [stop_continuous_alert()] (clearing the start time).  [t0] comes from
    [time.time()] and is not zero. *)
Theorem C2_alert_scenario
    (a0 : LaneDepartureAlert (F := F)) (t0 t1 t2 : F) (alive0 alive2 : bool)
    (mid : list Obs) :
  last_departure_state a0 = false ->
  continuous_alert_threshold a0 = lit 2 ->
  truthy t0 = true ->
  Forall (fun o => obs_off_lane o = true
                   /\ ((obs_time o - t0 >? lit 2) = false
                       \/ obs_alive o = true)) mid ->
  (t1 - t0 >? lit 2) = true ->
  let first := mkObs true t0 alive0 in
  let escalate := mkObs true t1 false in
  let back := mkObs false t2 alive2 in
  drive a0 [first] =
    ([[play_beep false]], mkLaneDepartureAlert true (Some t0) (lit 2))
  /\ drive a0 (first :: mid) =
       ([play_beep false] :: map (fun _ => []) mid,
        mkLaneDepartureAlert true (Some t0) (lit 2))
  /\ drive a0 (first :: mid ++ [escalate]) =
       ([play_beep false] :: map (fun _ => []) mid
          ++ [[play_continuous_alert (lit 5)]],
        mkLaneDepartureAlert true (Some t0) (lit 2))
  /\ drive a0 (first :: mid ++ [escalate; back]) =
       ([play_beep false] :: map (fun _ => []) mid
          ++ [[play_continuous_alert (lit 5)]; [stop_continuous_alert]],
        mkLaneDepartureAlert false None (lit 2)).
Proof.
  intros L0 T0 Z0 Hmid Hesc first escalate back.
  assert (S1 : process_departure a0 true t0 alive0 =
               ([play_beep false], mkLaneDepartureAlert true (Some t0) (lit 2))).
  { unfold process_departure. rewrite L0, T0. reflexivity. }
  assert (S2 : process_departure (mkLaneDepartureAlert true (Some t0) (lit 2))
                 true t1 false =
               ([play_continuous_alert (lit 5)],
                mkLaneDepartureAlert true (Some t0) (lit 2))).
  { unfold process_departure, escalation_due.
    cbn [last_departure_state departure_start_time continuous_alert_threshold].
    rewrite Z0, Hesc. reflexivity. }
  assert (S3 : process_departure (mkLaneDepartureAlert true (Some t0) (lit 2))
                 false t2 alive2 =
               ([stop_continuous_alert], mkLaneDepartureAlert false None (lit 2))).
  { reflexivity. }
  assert (D1 : forall rest,
             drive a0 (first :: rest) =
               ([play_beep false]
                  :: fst (drive (mkLaneDepartureAlert true (Some t0) (lit 2)) rest),
                snd (drive (mkLaneDepartureAlert true (Some t0) (lit 2)) rest))).
  { intros rest. cbn [drive]. subst first.
    cbn [obs_off_lane obs_time obs_alive]. rewrite S1.
    now destruct (drive _ rest). }
  repeat split.
  - rewrite D1. reflexivity.
  - rewrite D1, (@drive_quiet t0 (lit 2) mid Hmid). reflexivity.
  - rewrite D1, drive_app, (@drive_quiet t0 (lit 2) mid Hmid). cbn [fst snd].
    rewrite drive_one. subst escalate.
    cbn [obs_off_lane obs_time obs_alive]. rewrite S2. reflexivity.
  - rewrite D1, drive_app, (@drive_quiet t0 (lit 2) mid Hmid). cbn [fst snd].
    subst escalate back. cbn [drive obs_off_lane obs_time obs_alive].
    rewrite S2, S3. reflexivity.
Qed.

(** C6.  In every state reached from the constructor by calls of
    [process_departure], [departure_start_time] is set exactly when the
    last processed frame was off-lane (never, before the first frame),
    and a further call clears it exactly when it is the first in-lane
    frame after a departure. *)
Theorem C6_start_time_invariant (frames : list (Obs (F := F))) :
  let a := snd (drive LaneDepartureAlert_init frames) in
  (departure_start_time a <> None <-> last_departure_state a = true)
  /\ last_departure_state a = last (map (@obs_off_lane F) frames) false
  /\ forall (d : bool) (t : F) (alive : bool),
       let a' := snd (process_departure a d t alive) in
       (departure_start_time a' <> None <-> d = true)
       /\ ((departure_start_time a <> None /\ departure_start_time a' = None)
           <-> (last_departure_state a = true /\ d = false)).
Proof.
  intros a.
  assert (I : alert_inv a).
  { apply drive_inv. unfold alert_inv. cbn. split; congruence. }
  split; [exact I|].
  split; [apply (drive_last frames LaneDepartureAlert_init)|].
  intros d t alive a'.
  pose proof (process_departure_inv d t alive I) as I'.
  pose proof (process_departure_last a d t alive) as L'.
  fold a' in I', L'. unfold alert_inv in I, I'. rewrite L' in I'.
  split; [exact I'|].
  split.
  - intros [S C]. split; [now apply I|].
    destruct d; [|reflexivity]. exfalso. now apply (proj2 I').
  - intros [L D]. split; [now apply I|].
    destruct (departure_start_time a') eqn:E; [|reflexivity].
    assert (d = true) by (apply I'; congruence). congruence.
Qed.

End AlertFacts.

(** A run of the machine on the clock values 1000.0, 1000.5, 1001.9,
    1002.1 and 1002.2. *)
Lemma C2_witness :
  drive (F := Q) LaneDepartureAlert_init
    (mkObs true 1000 false
       :: [mkObs true (10005 # 10) true; mkObs true (10019 # 10) false]
       ++ [mkObs true (10021 # 10) false; mkObs false (10022 # 10) false])
  = ([play_beep false]
       :: map (fun _ => []) [mkObs true (10005 # 10) true;
                             mkObs true (10019 # 10) false]
       ++ [[play_continuous_alert (lit 5)]; [stop_continuous_alert]],
     mkLaneDepartureAlert false None (lit 2)).
Proof.
  refine (proj2 (proj2 (proj2
    (@C2_alert_scenario Q Q_Arith LaneDepartureAlert_init
       1000 (10021 # 10) (10022 # 10) false false
       [mkObs true (10005 # 10) true; mkObs true (10019 # 10) false]
       _ _ _ _ _)))).
  - reflexivity.
  - reflexivity.
  - reflexivity.
  - repeat constructor; left; reflexivity.
  - reflexivity.
Defined.

(** The same run on binary64, the arithmetic of [time.time()]. *)
Example alert_scenario_binary64 :
  fst (drive (F := float) LaneDepartureAlert_init
         [mkObs true (lit 1000) false;
          mkObs true (dec 10005 10) true;
          mkObs true (dec 10019 10) false;
          mkObs true (dec 10021 10) false;
          mkObs false (dec 10022 10) false])
  = [[play_beep false]; []; []; [play_continuous_alert 5%float];
     [stop_continuous_alert]].
Proof. reflexivity. Qed.

(** ** TemporalSmoother and threshold updates *)

Section DetectorFacts.

Context {F : Type} {A : Arith F}.
Local Open Scope num_scope.

Lemma calculate_drift_unfold (self : LaneDetector) frame lines :
  _calculate_drift self frame lines =
    (let c := accepted_center self frame lines in
     let off := calculate_center_offset c (frame_center frame) in
     mkResult lines (Some c) (Some (frame_center frame)) off
       (is_lane_departure off (departure_threshold self)) None,
     next_detector self frame lines).
Proof.
  unfold _calculate_drift, next_detector.
  unfold accepted_center, new_estimate, frame_center, blend.
  destruct lines as [ls|]; [|reflexivity].
  destruct (calculate_lane_center (Some ls) (shape_width frame)) as [e|];
    [|reflexivity].
  destruct (last_lane_center self) as [l|]; reflexivity.
Qed.

(** An absent estimate leaves the detector as it was. *)
Lemma absent_estimate_keeps_detector (self : LaneDetector) frame lines :
  new_estimate frame lines = None ->
  snd (_calculate_drift self frame lines) = self
  /\ lane_center (fst (_calculate_drift self frame lines))
     = Some (or_else (last_lane_center self) (frame_center frame)).
Proof.
  intros E. rewrite calculate_drift_unfold. cbn.
  unfold next_detector, accepted_center. rewrite E. split; reflexivity.
Qed.

(** With no previous centre the fallback is the image centre. *)
Lemma absent_estimate_no_history (self : LaneDetector) frame lines :
  new_estimate frame lines = None ->
  last_lane_center self = None ->
  lane_center (fst (_calculate_drift self frame lines))
  = Some (frame_center frame).
Proof.
  intros E L.
  rewrite (proj2 (absent_estimate_keeps_detector self frame lines E)), L.
  reflexivity.
Qed.

(** With a previous centre that is not zero the fallback is that centre. *)
Lemma absent_estimate_nonzero_history (self : LaneDetector) frame lines l :
  new_estimate frame lines = None ->
  last_lane_center self = Some l ->
  truthy l = true ->
  lane_center (fst (_calculate_drift self frame lines)) = Some l.
Proof.
  intros E L T.
  rewrite (proj2 (absent_estimate_keeps_detector self frame lines E)), L.
  cbn. now rewrite T.
Qed.

(** [last_lane_center] is only ever written with a value. *)
Lemma calculate_drift_sticky (self : LaneDetector) frame lines :
  last_lane_center self <> None ->
  last_lane_center (snd (_calculate_drift self frame lines)) <> None.
Proof.
  intros S. rewrite calculate_drift_unfold. cbn. unfold next_detector.
  destruct (new_estimate frame lines); [discriminate|exact S].
Qed.

Lemma detect_lanes_sticky (self : LaneDetector) (frame : option Frame) :
  last_lane_center self <> None ->
  last_lane_center (snd (detect_lanes self frame)) <> None.
Proof.
  intros S. unfold detect_lanes.
  destruct frame as [fr|]; [|exact S].
  destruct (hough_lines fr) as [ls|]; [|exact S].
  pose proof (calculate_drift_sticky self fr ls S) as S'.
  destruct (_calculate_drift self fr ls) as [r d]. cbn [snd] in S'.
  destruct (overlay_raises fr); exact S'.
Qed.

Lemma detect_all_sticky (frames : list (option Frame)) :
  forall self,
    last_lane_center self <> None ->
    last_lane_center (snd (detect_all self frames)) <> None.
Proof.
  induction frames as [|fr rest IH]; intros self S; [exact S|].
  cbn [detect_all].
  pose proof (detect_lanes_sticky self fr S) as S1.
  destruct (detect_lanes self fr) as [r d]. cbn [snd] in S1.
  specialize (IH d S1). now destruct (detect_all d rest).
Qed.

(** C8.  After [update_threshold(t)] the next classification compares
    the offset with [t]: the offset is the one the detector would have
    computed anyway, and [off_lane] is [|offset| > t].  The update only
    replaces the threshold of the detector; a result computed before it
    was classified with the threshold of that time. *)
Theorem C8_threshold_update_roundtrip
    (self : LaneDetector (F := F)) (frame : Frame)
    (lines : option (list Line)) (t : F) :
  let before := fst (_calculate_drift self frame lines) in
  let after := fst (_calculate_drift (update_threshold self t) frame lines) in
  departure_threshold (update_threshold self t) = t
  /\ last_lane_center (update_threshold self t) = last_lane_center self
  /\ smoothing_factor (update_threshold self t) = smoothing_factor self
  /\ offset after = offset before
  /\ off_lane after = is_lane_departure (offset before) t
  /\ off_lane after = (absF (offset before) >? t)
  /\ off_lane before
     = is_lane_departure (offset before) (departure_threshold self).
Proof.
  intros before after. subst before after.
  rewrite !calculate_drift_unfold. cbn.
  repeat split; reflexivity.
Qed.

(** C10.  [detect_lanes] answers a missing frame, a failure of the
    OpenCV steps and a failure while drawing the overlays with the same
    fixed result: offset 0.0, [off_lane] false, no lane centre, no lines,
    no processed frame.  The alert machine treats that result as an
    in-lane frame, so it stops an alert that was running. *)
Theorem C10_errors_give_empty_result
    (self : LaneDetector (F := F)) (fr : Frame) :
  detect_lanes self None = (_empty_result, self)
  /\ (hough_lines fr = None ->
      detect_lanes self (Some fr) = (_empty_result, self))
  /\ (overlay_raises fr = true ->
      fst (detect_lanes self (Some fr)) = _empty_result)
  /\ (offset (F := F) _empty_result = lit 0
      /\ off_lane (F := F) _empty_result = false
      /\ lane_center (F := F) _empty_result = None
      /\ lines (F := F) _empty_result = None
      /\ processed_frame (F := F) _empty_result = None)
  /\ (forall (a : LaneDepartureAlert) (t : F) (alive : bool),
        process_departure a (off_lane (F := F) _empty_result) t alive
        = process_departure a false t alive
        /\ (last_departure_state a = true ->
            process_departure a (off_lane (F := F) _empty_result) t alive
            = ([stop_continuous_alert],
               mkLaneDepartureAlert false None
                 (continuous_alert_threshold a)))).
Proof.
  split; [reflexivity|].
  split.
  { intros H. unfold detect_lanes. now rewrite H. }
  split.
  { intros H. unfold detect_lanes.
    destruct (hough_lines fr) as [ls|]; [|reflexivity].
    destruct (_calculate_drift self fr ls). now rewrite H. }
  split; [repeat split; reflexivity|].
  intros a t alive. split; [reflexivity|].
  intros L. cbn [off_lane _empty_result]. unfold process_departure.
  now rewrite L.
Qed.

End DetectorFacts.

(** *** The fallback on a zero centre *)

(** C3, at the input where the code departs from it.  A detector whose
    [last_lane_center] has been set to 0.0 by a real estimate, and which
    then sees a frame without lines, accepts the image centre 640.0 and
    not the stored 0.0: the test [if self.last_lane_center] takes 0.0 for
    absent.  The stored value itself is kept. *)
Theorem C3_zero_center_falls_back_to_image_center :
  let d0 := LaneDetector_init (F := float) (lit 50) in
  let d1 := snd (detect_lanes d0 (Some frame_right_at_100)) in
  let r2 := fst (detect_lanes d1 (Some frame_no_lines)) in
  let d2 := snd (detect_lanes d1 (Some frame_no_lines)) in
  last_lane_center d1 = Some 0%float
  /\ new_estimate (F := float) frame_no_lines (hough_lines_of frame_no_lines)
     = None
  /\ lane_center r2 = Some 640%float
  /\ lane_center r2 <> last_lane_center d1
  /\ last_lane_center d2 = Some 0%float.
Proof.
  repeat split; try reflexivity.
  intros H.
  apply (f_equal (fun o => match o with
                           | Some c => PrimFloat.eqb c 0
                           | None => false
                           end)) in H.
  vm_compute in H. discriminate H.
Qed.

(** *** The blend under a constant estimate *)

Section SmootherRuns.

Context {F : Type} {A : Arith F}.

Lemma drift_blends (self : LaneDetector (F := F)) fr ls (l e : F) :
  last_lane_center self = Some l ->
  new_estimate fr ls = Some e ->
  lane_center (fst (_calculate_drift self fr ls))
    = Some (blend (smoothing_factor self) l e)
  /\ snd (_calculate_drift self fr ls)
     = mkLaneDetector (departure_threshold self)
         (Some (blend (smoothing_factor self) l e)) (smoothing_factor self).
Proof.
  intros L E. rewrite calculate_drift_unfold. cbn.
  unfold next_detector, accepted_center. rewrite E, L. split; reflexivity.
Qed.

End SmootherRuns.

Lemma blend_fixed_Q (s l e E : Q) :
  l == E -> e == E -> blend s l e == E.
Proof.
  intros Hl He. unfold blend, lit. cbn. rewrite Hl, He. ring.
Qed.

(** Holding a centre equal to [E] and being fed estimates equal to [E],
    the detector keeps accepting a centre equal to [E]. *)
Lemma drift_all_constant_Q (E : Q) (inputs : list (Frame * option (list Line))) :
  forall self : LaneDetector (F := Q),
    (exists l, last_lane_center self = Some l /\ l == E) ->
    Forall (fun i => exists e, new_estimate (fst i) (snd i) = Some e /\ e == E)
      inputs ->
    Forall (fun r => exists c, lane_center r = Some c /\ c == E)
      (fst (drift_all self inputs))
    /\ exists l, last_lane_center (snd (drift_all self inputs)) = Some l
                 /\ l == E.
Proof.
  induction inputs as [|[fr ls] rest IH]; intros self HL HI.
  - split; [constructor|exact HL].
  - inversion HI as [|i rest' [e [He Ee]] HR]; subst. cbn [fst snd] in He.
    destruct HL as [l [Hl El]].
    destruct (drift_blends self fr ls Hl He) as [C S].
    cbn [drift_all].
    destruct (_calculate_drift self fr ls) as [r d]. cbn [fst snd] in C, S.
    assert (B : blend (smoothing_factor self) l e == E)
      by (apply blend_fixed_Q; assumption).
    destruct (IH d) as [IH1 IH2]; [|exact HR|].
    { subst d. cbn. eexists; split; [reflexivity|exact B]. }
    destruct (drift_all d rest) as [rs d']. cbn [fst snd] in *.
    split; [|exact IH2].
    constructor; [|exact IH1]. eexists; split; [exact C|exact B].
Qed.

(** C7 as stated fails on binary64: a detector that holds
    [E = 450.6666666666667] and is given a frame whose estimate is the
    same [E] accepts [0.7 * E + (1 - 0.7) * E], which rounds to
    450.66666666666663, and stores that value. *)
Lemma C7_binary64_counterexample :
  let d0 := LaneDetector_init (F := float) (lit 50) in
  let d1 := snd (_calculate_drift d0 frame_three_left (Some three_left)) in
  let r2 := fst (_calculate_drift d1 frame_three_left (Some three_left)) in
  let d2 := snd (_calculate_drift d1 frame_three_left (Some three_left)) in
  new_estimate (F := float) frame_three_left (Some three_left)
    = Some E_three_left
  /\ last_lane_center d1 = Some E_three_left
  /\ lane_center r2 <> Some E_three_left
  /\ last_lane_center d2 <> Some E_three_left
  /\ lane_center r2
     = Some (blend (dec 7 10) E_three_left E_three_left).
Proof.
  assert (N : forall o : option float,
             match o with
             | Some c => PrimFloat.eqb c E_three_left
             | None => false
             end = false -> o <> Some E_three_left).
  { intros o H E. rewrite E in H. vm_compute in H. discriminate H. }
  repeat split; try reflexivity; apply N; reflexivity.
Qed.

(** C7, amended.  When the detector holds [E] and the frame's estimate
    is [E], the accepted centre is
    [smoothing_factor * E + (1 - smoothing_factor) * E] and becomes the
    new [last_lane_center], on every arithmetic.  In exact arithmetic that
    value is [E], so a run of frames whose estimates all equal [E],
    started with [last_lane_center = E], accepts [E] on every frame and
    still holds [E] at the end. *)
Theorem C7_blend_fixed_point_exact :
  (forall (F : Type) (A : Arith F) (self : LaneDetector (F := F))
          (fr : Frame) (ls : option (list Line)) (E : F),
      last_lane_center self = Some E ->
      new_estimate fr ls = Some E ->
      lane_center (fst (_calculate_drift self fr ls))
        = Some (smoothing_factor self * E
                + (lit 1 - smoothing_factor self) * E)%num
      /\ last_lane_center (snd (_calculate_drift self fr ls))
         = lane_center (fst (_calculate_drift self fr ls)))
  /\ (forall s E : Q, (s * E + (1 - s) * E == E)%Q)
  /\ (forall (self : LaneDetector (F := Q)) (E : Q)
             (inputs : list (Frame * option (list Line))),
        (exists l, last_lane_center self = Some l /\ l == E) ->
        Forall (fun i => exists e,
                    new_estimate (fst i) (snd i) = Some e /\ e == E) inputs ->
        Forall (fun r => exists c, lane_center r = Some c /\ c == E)
          (fst (drift_all self inputs))
        /\ exists l, last_lane_center (snd (drift_all self inputs)) = Some l
                     /\ l == E).
Proof.
  split.
  { intros F A self fr ls E L N.
    destruct (drift_blends self fr ls L N) as [C S].
    rewrite S. split; [exact C|]. cbn. now rewrite C. }
  split; [intros s E; ring|].
  intros self E inputs. apply drift_all_constant_Q.
Qed.

Lemma C7_witness :
  Forall (fun r => exists c : Q, lane_center r = Some c /\ c == 400)
    (fst (drift_all (mkLaneDetector (50 : Q) (Some 400) (7 # 10))
            [(mkFrame 1280 (Some (Some [left_sample])) false,
              Some [left_sample]);
             (mkFrame 1280 (Some (Some [left_sample])) false,
              Some [left_sample])])).
Proof.
  refine (proj1 (proj2 (proj2 C7_blend_fixed_point_exact)
                   (mkLaneDetector (50 : Q) (Some 400) (7 # 10)) 400
                   [(mkFrame 1280 (Some (Some [left_sample])) false,
                     Some [left_sample]);
                    (mkFrame 1280 (Some (Some [left_sample])) false,
                     Some [left_sample])] _ _)).
  - exists 400. split; reflexivity.
  - repeat constructor; (eexists; split; [reflexivity|reflexivity]).
Defined.

(** ** Configuration updates *)

Lemma clamp_Q (lo hi v : Q) :
  lo <= hi ->
  let c := py_max lo (py_min hi v) in
  lo <= c <= hi
  /\ (lo <= v <= hi -> c == v)
  /\ (v < lo -> c == lo)
  /\ (hi < v -> c == hi).
Proof.
  intros B c. subst c. unfold py_max, py_min. cbn [ltb Q_Arith].
  destruct (Qltb v hi) eqn:H1.
  - apply Qltb_lt in H1.
    destruct (Qltb lo v) eqn:H2.
    + apply Qltb_lt in H2. repeat split; intros; lra.
    + apply Qltb_ge in H2. repeat split; intros; lra.
  - apply Qltb_ge in H1.
    destruct (Qltb lo hi) eqn:H2.
    + apply Qltb_lt in H2. repeat split; intros; lra.
    + apply Qltb_ge in H2. repeat split; intros; lra.
Qed.

(** C5 as stated fails: [update_threshold(-5.0)] stores -5.0 as it is,
    and with it the next frame, on which nothing is detected and the
    offset is 0.0, is classified as a departure. *)
Lemma C5_negative_threshold_counterexample :
  let d := update_threshold (LaneDetector_init (F := float) (lit 50))
             (lit (-5)) in
  let r := fst (detect_lanes d (Some frame_no_lines)) in
  departure_threshold d = (-5)%float
  /\ offset r = 0%float
  /\ off_lane r = true
  /\ ~ (forall (self : LaneDetector (F := Q)) (v : Q),
          0 <= departure_threshold (update_threshold self v)).
Proof.
  repeat split; try reflexivity.
  intros H. specialize (H (LaneDetector_init (lit 50)) (-5 # 1)).
  cbn in H. lra.
Qed.

(** C5, amended.  The setters of the alert sink clamp at update time:
    the stored volume is [max(0.0, min(1.0, v))], inside [0, 1] and equal
    to [v] when [v] is in range, and likewise the frequency is kept in
    [100, 2000] and the beep duration in [0.1, 2.0].  [update_threshold]
    does not validate: it stores its argument as it is and leaves
    [last_lane_center] and [smoothing_factor] alone, so on the next frame
    [_calculate_drift] computes the same offset as before and sets
    [off_lane] to [|offset| > v] with the raw [v]; on exact numbers a
    negative [v] makes [_calculate_drift] report a departure on every
    frame. *)
Theorem C5_sink_clamps_threshold_raw :
  (forall (a : AudioAlert (F := Q)) (v : Q),
      let c := volume (update_volume a v) in
      0 <= c <= 1
      /\ (0 <= v <= 1 -> c == v)
      /\ (v < 0 -> c == 0)
      /\ (1 < v -> c == 1))
  /\ (forall (a : AudioAlert (F := Q)) (f : Z),
        (100 <= frequency (update_frequency a f) <= 2000)%Z
        /\ ((100 <= f <= 2000)%Z -> frequency (update_frequency a f) = f))
  /\ (forall (a : AudioAlert (F := Q)) (v : Q),
        let c := duration (update_duration a v) in
        1 # 10 <= c <= 2 /\ (1 # 10 <= v <= 2 -> c == v))
  /\ (forall (F : Type) (A : Arith F) (self : LaneDetector (F := F))
             (v : F) (fr : Frame) (ls : option (list Line)),
        departure_threshold (update_threshold self v) = v
        /\ last_lane_center (update_threshold self v) = last_lane_center self
        /\ smoothing_factor (update_threshold self v) = smoothing_factor self
        /\ offset (fst (_calculate_drift (update_threshold self v) fr ls))
           = offset (fst (_calculate_drift self fr ls))
        /\ off_lane (fst (_calculate_drift (update_threshold self v) fr ls))
           = is_lane_departure
               (offset (fst (_calculate_drift self fr ls))) v
        /\ off_lane (fst (_calculate_drift (update_threshold self v) fr ls))
           = (absF (offset (fst (_calculate_drift self fr ls))) >? v)%num)
  /\ (forall (self : LaneDetector (F := Q)) (v : Q) (fr : Frame)
             (ls : option (list Line)),
        v < 0 ->
        off_lane (fst (_calculate_drift (update_threshold self v) fr ls))
        = true).
Proof.
  split.
  { intros a v c. subst c. cbn [volume update_volume].
    apply (@clamp_Q 0 1 v). lra. }
  split.
  { intros a f. cbn [frequency update_frequency]. lia. }
  split.
  { intros a v c. subst c. cbn [duration update_duration].
    destruct (@clamp_Q (dec 1 10) (lit 2) v) as [B [I _]].
    - vm_compute. discriminate.
    - split.
      + change (1 # 10 <= py_max (dec 1 10) (py_min (lit 2) v) <= 2) in B |- *.
        assert (E : dec (F := Q) 1 10 == 1 # 10) by reflexivity.
        assert (E2 : lit (F := Q) 2 == 2) by reflexivity.
        lra.
      + intros R. apply I.
        assert (E : dec (F := Q) 1 10 == 1 # 10) by reflexivity.
        assert (E2 : lit (F := Q) 2 == 2) by reflexivity.
        lra. }
  split.
  { intros F A self v fr ls. rewrite !calculate_drift_unfold.
    repeat split; reflexivity. }
  intros self v fr ls N. rewrite calculate_drift_unfold.
  cbn [fst off_lane departure_threshold update_threshold].
  apply Qltb_lt. apply Qlt_le_trans with 0; [exact N|apply Qabs_nonneg].
Qed.

Lemma C5_witness :
  volume (update_volume (AudioAlert_init (F := Q) 800 (3 # 10) (1 # 2) 1)
            (-3)) == 0.
Proof.
  refine (proj1 (proj2 (proj2 (proj1 C5_sink_clamps_threshold_raw
            (AudioAlert_init (F := Q) 800 (3 # 10) (1 # 2) 1) (-3)))) _).
  reflexivity.
Defined.

(** ** The main loop *)

Section LoopFacts.

Context {F : Type} {A : Arith F}.

(** C9.  An iteration whose [get_frame()] reports failure changes
    nothing: no detection, no command to the sink, the detector and the
    alert machine as they were; the loop goes on with the next
    iteration. *)
Theorem C9_failed_frame_is_skipped
    (self : OpenLKAS (F := F)) (t : Tick) (rest : list Tick) :
  ret t = false ->
  run_iteration self t = (Continue, [], self)
  /\ run_loop self (t :: rest) = run_loop self rest.
Proof.
  intros R.
  assert (I : run_iteration self t = (Continue, [], self)).
  { unfold run_iteration. now rewrite R. }
  split; [exact I|].
  cbn [run_loop]. rewrite I. now destruct (run_loop self rest).
Qed.

End LoopFacts.

Lemma C9_witness :
  run_iteration OpenLKAS_init failed_tick = (Continue, [], OpenLKAS_init)
  /\ run_loop OpenLKAS_init [failed_tick; failed_tick]
     = run_loop OpenLKAS_init [failed_tick].
Proof.
  apply (@C9_failed_frame_is_skipped float Float_Arith OpenLKAS_init
           failed_tick [failed_tick]).
  reflexivity.
Defined.

Lemma C10_witness :
  detect_lanes (LaneDetector_init (F := float) (lit 50)) (Some frame_cv_error)
  = (_empty_result, LaneDetector_init (lit 50)).
Proof.
  apply (proj1 (proj2 (@C10_errors_give_empty_result float Float_Arith
                         (LaneDetector_init (lit 50)) frame_cv_error))).
  reflexivity.
Defined.

(** An off-lane frame followed by a frame the detector cannot process:
    the error frame stops the alert. *)
Example error_frame_cancels_alert :
  fst (run_loop OpenLKAS_init
         [mkTick true (Some frame_right_at_100) (lit 1000) false KeyOther;
          mkTick true (Some frame_cv_error) (dec 10001 10) true KeyOther])
  = [play_beep false; stop_continuous_alert].
Proof. reflexivity. Qed.

(** * Further properties of the code *)

(** ** The estimator and the order of its input *)

Section EstimatorOrder.

Context {F : Type} {A : Arith F}.
Local Open Scope num_scope.

Lemma filter_permutation (X : Type) (p : X -> bool) (l l' : list X) :
  Permutation l l' -> Permutation (filter p l) (filter p l').
Proof.
  induction 1 as [|x l l' _ IH|x y l|l l' l'' _ IH1 _ IH2]; cbn.
  - constructor.
  - destruct (p x); [now constructor|exact IH].
  - destruct (p x), (p y); try reflexivity. apply perm_swap.
  - now transitivity (filter p l').
Qed.

Lemma sumZ_permutation (xs ys : list Z) :
  Permutation xs ys -> sumZ xs = sumZ ys.
Proof.
  unfold sumZ.
  induction 1 as [|x l l' _ IH|x y l|l l' l'' _ IH1 _ IH2]; cbn; lia.
Qed.

Lemma np_mean_permutation (L L' : list Line) :
  Permutation L L' ->
  np_mean (F := F) (x_coords L) = np_mean (x_coords L').
Proof.
  intros P. unfold np_mean.
  rewrite !x_coords_sum, !x_coords_length.
  rewrite (Permutation_length P).
  now rewrite (sumZ_permutation (Permutation_map _ P)).
Qed.

Lemma lane_center_spec_permutation (ls ls' : list Line) :
  Permutation ls ls' ->
  lane_center_spec (F := F) ls = lane_center_spec ls'.
Proof.
  intros P. unfold lane_center_spec.
  pose proof (filter_permutation (is_left (F := F)) P) as PL.
  pose proof (filter_permutation (is_right (F := F)) P) as PR.
  pose proof (np_mean_permutation PL) as ML.
  pose proof (np_mean_permutation PR) as MR.
  destruct (filter is_left ls) as [|l0 L] eqn:EL.
  - apply Permutation_nil in PL. rewrite PL in *.
    destruct (filter is_right ls) as [|r0 R] eqn:ER.
    + apply Permutation_nil in PR. now rewrite PR.
    + destruct (filter is_right ls') as [|r0' R'] eqn:ER'.
      * symmetry in PR. apply Permutation_nil in PR. discriminate.
      * now rewrite MR.
  - destruct (filter is_left ls') as [|l0' L'] eqn:EL'.
    { symmetry in PL. apply Permutation_nil in PL. discriminate. }
    destruct (filter is_right ls) as [|r0 R] eqn:ER.
    + apply Permutation_nil in PR. rewrite PR. now rewrite ML.
    + destruct (filter is_right ls') as [|r0' R'] eqn:ER'.
      * symmetry in PR. apply Permutation_nil in PR. discriminate.
      * now rewrite ML, MR.
Qed.

(** X1.  The estimate depends neither on the order in which the
    segments are listed nor on [image_width]. *)
Theorem lane_center_order_independent (ls ls' : list Line) (w w' : Z) :
  Permutation ls ls' ->
  calculate_lane_center (F := F) (Some ls) w
  = calculate_lane_center (Some ls') w'.
Proof.
  intros P. rewrite !calculate_lane_center_spec.
  now apply lane_center_spec_permutation.
Qed.

(** X2.  A segment the slope test discards does not influence the
    estimate, wherever it stands in the input. *)
Theorem discarded_segment_ignored (l : Line) (before after : list Line)
    (w : Z) :
  discarded (F := F) l = true ->
  calculate_lane_center (F := F) (Some (before ++ l :: after)) w
  = calculate_lane_center (Some (before ++ after)) w.
Proof.
  intros D. rewrite !calculate_lane_center_spec. unfold lane_center_spec.
  assert (NL : is_left (F := F) l = false) by (unfold is_left; now rewrite D).
  assert (NR : is_right (F := F) l = false) by (unfold is_right; now rewrite D).
  rewrite !filter_app. cbn [filter]. now rewrite NL, NR.
Qed.

End EstimatorOrder.

Lemma lane_center_order_independent_witness :
  calculate_lane_center (F := float) (Some [left_sample; right_sample]) 1280
  = calculate_lane_center (Some [right_sample; left_sample]) 640.
Proof.
  apply (@lane_center_order_independent float Float_Arith
           [left_sample; right_sample] [right_sample; left_sample]
           1280%Z 640%Z).
  apply perm_swap.
Defined.

Lemma discarded_segment_ignored_witness :
  calculate_lane_center (F := float)
    (Some ([left_sample] ++ mkLine 0 500 1280 500 :: [right_sample])) 1280
  = calculate_lane_center (Some ([left_sample] ++ [right_sample])) 1280.
Proof.
  apply (@discarded_segment_ignored float Float_Arith
           (mkLine 0 500 1280 500) [left_sample] [right_sample] 1280%Z).
  reflexivity.
Defined.

(** ** The estimator on exact numbers *)

Lemma slopeQ_swap (l : Line) :
  x2 l <> x1 l -> slopeQ (swap_endpoints l) == slopeQ l.
Proof.
  intros N. unfold slopeQ, swap_endpoints. cbn [x1 y1 x2 y2].
  replace (y1 l - y2 l)%Z with (- (y2 l - y1 l))%Z by lia.
  replace (x1 l - x2 l)%Z with (- (x2 l - x1 l))%Z by lia.
  rewrite !inject_Z_opp.
  assert (NZ : ~ inject_Z (x2 l - x1 l) == 0).
  { intros E. apply (inject_Z_injective (x2 l - x1 l) 0) in E. lia. }
  field. exact NZ.
Qed.

Lemma discarded_swap (l : Line) :
  discarded (F := Q) (swap_endpoints l) = discarded (F := Q) l.
Proof.
  apply eq_iff_eq_true. rewrite !discarded_Q.
  cbn [swap_endpoints x1 x2].
  destruct (Z.eq_dec (x2 l) (x1 l)) as [E|N].
  - split; intros _; left; congruence.
  - rewrite (@slopeQ_swap l N). split; intros [H|H]; auto; congruence.
Qed.

Lemma is_left_swap (l : Line) :
  is_left (F := Q) (swap_endpoints l) = is_left (F := Q) l.
Proof.
  apply eq_iff_eq_true. rewrite !is_left_Q, discarded_swap.
  cbn [swap_endpoints x1 x2].
  destruct (Z.eq_dec (x2 l) (x1 l)) as [E|N].
  - split; intros [_ [H _]]; congruence.
  - rewrite (@slopeQ_swap l N). split; intros [D [_ S]]; auto.
Qed.

Lemma is_right_swap (l : Line) :
  is_right (F := Q) (swap_endpoints l) = is_right (F := Q) l.
Proof.
  apply eq_iff_eq_true. rewrite !is_right_Q, discarded_swap.
  cbn [swap_endpoints x1 x2].
  destruct (Z.eq_dec (x2 l) (x1 l)) as [E|N].
  - split; intros [_ [H _]]; congruence.
  - rewrite (@slopeQ_swap l N). split; intros [D [_ S]]; auto.
Qed.

Lemma filter_map_swap (p : Line -> bool) (ls : list Line) :
  (forall l, p (swap_endpoints l) = p l) ->
  filter p (map swap_endpoints ls) = map swap_endpoints (filter p ls).
Proof.
  intros H. induction ls as [|l rest IH]; [reflexivity|].
  cbn [map filter]. rewrite H, IH. now destruct (p l).
Qed.

Lemma np_mean_swap (L : list Line) :
  np_mean (F := Q) (x_coords (map swap_endpoints L))
  = np_mean (x_coords L).
Proof.
  unfold np_mean. rewrite !x_coords_sum, !x_coords_length, length_map.
  f_equal. f_equal.
  induction L as [|l rest IH]; [reflexivity|].
  cbn [map sumZ fold_right swap_endpoints x1 x2] in *.
  unfold sumZ in IH. rewrite IH. lia.
Qed.

(** X3.  On exact numbers the estimate does not depend on which end of a
    segment the detector reports first. *)
Theorem lane_center_endpoint_order (ls : list Line) (w : Z) :
  calculate_lane_center (F := Q) (Some (map swap_endpoints ls)) w
  = calculate_lane_center (Some ls) w.
Proof.
  rewrite !calculate_lane_center_spec. unfold lane_center_spec.
  rewrite (filter_map_swap _ ls is_left_swap).
  rewrite (filter_map_swap _ ls is_right_swap).
  pose proof (np_mean_swap (filter (is_left (F := Q)) ls)) as ML.
  pose proof (np_mean_swap (filter (is_right (F := Q)) ls)) as MR.
  destruct (filter (is_left (F := Q)) ls) as [|l0 L],
           (filter (is_right (F := Q)) ls) as [|r0 R];
    cbn [map] in *; try reflexivity.
  - now rewrite MR.
  - now rewrite ML.
  - now rewrite ML, MR.
Qed.

Lemma sumZ_bounds (lo hi : Z) (xs : list Z) :
  Forall (fun x => (lo <= x <= hi)%Z) xs ->
  (Z.of_nat (length xs) * lo <= sumZ xs <= Z.of_nat (length xs) * hi)%Z.
Proof.
  unfold sumZ. induction 1 as [|x rest Hx _ IH]; [cbn; lia|].
  cbn [length fold_right]. lia.
Qed.

Lemma np_mean_bounds (lo hi : Z) (xs : list Z) :
  xs <> [] ->
  Forall (fun x => (lo <= x <= hi)%Z) xs ->
  inject_Z lo <= np_mean (F := Q) xs <= inject_Z hi.
Proof.
  intros N B. pose proof (sumZ_bounds B) as [L H].
  assert (P : 0 < inject_Z (Z.of_nat (length xs))).
  { change 0 with (inject_Z 0). rewrite <- Zlt_Qlt.
    destruct xs; [congruence|cbn [length]; lia]. }
  unfold np_mean. cbn [div of_Z Q_Arith]. split.
  - apply Qle_shift_div_l; [exact P|].
    rewrite <- inject_Z_mult, <- Zle_Qle. lia.
  - apply Qle_shift_div_r; [exact P|].
    rewrite <- inject_Z_mult, <- Zle_Qle. lia.
Qed.

Lemma x_coords_bounds (lo hi : Z) (L : list Line) :
  Forall (fun l => (lo <= x1 l <= hi)%Z /\ (lo <= x2 l <= hi)%Z) L ->
  Forall (fun x => (lo <= x <= hi)%Z) (x_coords L).
Proof.
  induction 1 as [|l rest [H1 H2] _ IH]; cbn [x_coords]; repeat constructor;
    tauto || assumption.
Qed.

Lemma filter_Forall (X : Type) (P : X -> Prop) (p : X -> bool) (l : list X) :
  Forall P l -> Forall P (filter p l).
Proof.
  induction 1 as [|x rest Hx _ IH]; cbn; [constructor|].
  destruct (p x); [now constructor|exact IH].
Qed.

(** X4.  On exact numbers, when every endpoint lies between 0 and [W],
    an estimate built from both sides lies between 0 and [W], and an
    estimate built from one side alone lies between -100 and [W + 100]. *)
Theorem lane_center_bounds (W : Z) (ls : list Line) (w : Z) (c : Q) :
  Forall (fun l => (0 <= x1 l <= W)%Z /\ (0 <= x2 l <= W)%Z) ls ->
  calculate_lane_center (F := Q) (Some ls) w = Some c ->
  -100 <= c <= inject_Z W + 100
  /\ (filter (is_left (F := Q)) ls <> [] ->
      filter (is_right (F := Q)) ls <> [] ->
      0 <= c <= inject_Z W).
Proof.
  intros B. rewrite calculate_lane_center_spec. unfold lane_center_spec.
  pose proof (x_coords_bounds (@filter_Forall _ _ (is_left (F := Q)) _ B)) as BL.
  pose proof (x_coords_bounds (@filter_Forall _ _ (is_right (F := Q)) _ B)) as BR.
  assert (W0 : inject_Z 0 == 0) by reflexivity.
  destruct (filter (is_left (F := Q)) ls) as [|l0 L],
           (filter (is_right (F := Q)) ls) as [|r0 R];
    intros E; [discriminate| | |]; injection E as <-.
  - destruct (np_mean_bounds (xs := x_coords (r0 :: R))
                ltac:(discriminate) BR) as [Lo Hi].
    split; [|congruence].
    change (-100 <= np_mean (F := Q) (x_coords (r0 :: R)) - 100
            <= inject_Z W + 100). lra.
  - destruct (np_mean_bounds (xs := x_coords (l0 :: L))
                ltac:(discriminate) BL) as [Lo Hi].
    split; [|congruence].
    change (-100 <= np_mean (F := Q) (x_coords (l0 :: L)) + 100
            <= inject_Z W + 100). lra.
  - destruct (np_mean_bounds (xs := x_coords (l0 :: L))
                ltac:(discriminate) BL) as [Lo Hi].
    destruct (np_mean_bounds (xs := x_coords (r0 :: R))
                ltac:(discriminate) BR) as [Lo' Hi'].
    assert (M : 0 <= (np_mean (F := Q) (x_coords (l0 :: L))
                      + np_mean (F := Q) (x_coords (r0 :: R))) / 2
                <= inject_Z W).
    { split.
      - apply Qle_shift_div_l; lra.
      - apply Qle_shift_div_r; lra. }
    change (-100 <= (np_mean (F := Q) (x_coords (l0 :: L))
                     + np_mean (F := Q) (x_coords (r0 :: R))) / 2
            <= inject_Z W + 100
            /\ (l0 :: L <> [] -> r0 :: R <> [] ->
                0 <= (np_mean (F := Q) (x_coords (l0 :: L))
                      + np_mean (F := Q) (x_coords (r0 :: R))) / 2
                <= inject_Z W)).
    split; [lra|intros _ _; exact M].
Qed.

Lemma lane_center_bounds_witness :
  -100 <= (700 # 2) + 100 <= inject_Z 1280 + 100.
Proof.
  refine (proj1 (@lane_center_bounds 1280 [mkLine 300 100 400 0] 1280
                   ((700 # 2) + 100) _ _)).
  - repeat constructor; cbn; lia.
  - reflexivity.
Defined.

(** ** The smoother *)

Section SmootherGeneric.

Context {F : Type} {A : Arith F}.

Lemma calculate_drift_keeps_config (self : LaneDetector (F := F)) fr ls :
  smoothing_factor (snd (_calculate_drift self fr ls)) = smoothing_factor self
  /\ departure_threshold (snd (_calculate_drift self fr ls))
     = departure_threshold self.
Proof.
  rewrite calculate_drift_unfold. cbn. unfold next_detector.
  destruct (new_estimate fr ls); split; reflexivity.
Qed.

(** X5.  A failure while drawing the overlays comes after the smoothing
    state has been updated: the caller gets the empty result, but
    [last_lane_center] already holds the centre accepted for that frame.
    A missing frame leaves the detector as it was, and a failure of the
    OpenCV steps leaves [last_lane_center] as it was. *)
Theorem overlay_failure_keeps_state_update
    (self : LaneDetector (F := F)) (fr : Frame) (ls : option (list Line))
    (e : F) :
  hough_lines fr = Some ls ->
  overlay_raises fr = true ->
  new_estimate fr ls = Some e ->
  fst (detect_lanes self (Some fr)) = _empty_result
  /\ last_lane_center (snd (detect_lanes self (Some fr)))
     = Some (accepted_center self fr ls)
  /\ snd (detect_lanes self None) = self
  /\ (forall fr', hough_lines fr' = None ->
                  last_lane_center (snd (detect_lanes self (Some fr')))
                  = last_lane_center self).
Proof.
  intros H O E. unfold detect_lanes. rewrite H.
  rewrite calculate_drift_unfold. cbv zeta. rewrite O. cbn [fst snd].
  unfold next_detector. rewrite E. cbn.
  repeat split. intros fr' H'. now rewrite H'.
Qed.

(** X6.  [off_lane] is reported only for a frame that went through the
    whole of [detect_lanes]: the frame was there, the result carries a
    lane centre and the processed frame, and [off_lane] is the test of
    the reported offset against the detector's threshold. *)
Theorem departure_only_on_processed_frame
    (self : LaneDetector (F := F)) (frame : option Frame) :
  off_lane (fst (detect_lanes self frame)) = true ->
  frame <> None
  /\ processed_frame (fst (detect_lanes self frame)) = frame
  /\ lane_center (fst (detect_lanes self frame)) <> None
  /\ is_lane_departure (offset (fst (detect_lanes self frame)))
       (departure_threshold self) = true.
Proof.
  unfold detect_lanes. destruct frame as [fr|]; [|discriminate].
  destruct (hough_lines fr) as [ls|]; [|discriminate].
  rewrite calculate_drift_unfold. cbv zeta.
  destruct (overlay_raises fr); [discriminate|].
  cbn. intros H. repeat split; try discriminate. exact H.
Qed.

Lemma detection_loss_step (self : LaneDetector (F := F))
    (frame : option Frame) :
  match frame with
  | Some fr => new_estimate (F := F) fr (hough_lines_of fr) = None
  | None => True
  end ->
  snd (detect_lanes self frame) = self
  /\ (fst (detect_lanes self frame) = _empty_result
      \/ exists fr,
           frame = Some fr
           /\ lane_center (fst (detect_lanes self frame))
              = Some (or_else (last_lane_center self) (frame_center fr))).
Proof.
  intros H. unfold detect_lanes.
  destruct frame as [fr|]; [|split; [reflexivity|now left]].
  unfold hough_lines_of in H.
  destruct (hough_lines fr) as [ls|]; [|split; [reflexivity|now left]].
  destruct (absent_estimate_keeps_detector self fr ls H) as [S C].
  destruct (_calculate_drift self fr ls) as [r d]. cbn [fst snd] in *.
  destruct (overlay_raises fr); split; auto.
  right. now exists fr.
Qed.

(** X7.  While no frame yields an estimate, [last_lane_center],
    [smoothing_factor] and [departure_threshold] stay as they are,
    whatever else happens to the frames; and with a stored centre other
    than zero, every frame that is processed reports exactly that
    centre. *)
Theorem detection_loss_holds_center
    (self : LaneDetector (F := F)) (frames : list (option Frame)) :
  Forall (fun fr => match fr with
                    | Some fr => new_estimate (F := F) fr (hough_lines_of fr)
                                 = None
                    | None => True
                    end) frames ->
  last_lane_center (snd (detect_all self frames)) = last_lane_center self
  /\ smoothing_factor (snd (detect_all self frames)) = smoothing_factor self
  /\ departure_threshold (snd (detect_all self frames))
     = departure_threshold self
  /\ (forall l : F,
        last_lane_center self = Some l ->
        truthy l = true ->
        Forall (fun r => r = _empty_result \/ lane_center r = Some l)
          (fst (detect_all self frames))).
Proof.
  induction 1 as [|fr rest H _ IH]; [repeat split; constructor|].
  cbn [detect_all].
  destruct (detection_loss_step self fr H) as [S R].
  destruct (detect_lanes self fr) as [r d]. cbn [fst snd] in S, R. subst d.
  destruct IH as [I1 [I2 [I3 I4]]].
  destruct (detect_all self rest) as [rs d']. cbn [fst snd] in *.
  repeat split; try assumption.
  intros l L T. constructor; [|now apply I4].
  destruct R as [R|[fr' [_ R]]]; [now left|right].
  rewrite R, L. cbn. now rewrite T.
Qed.

End SmootherGeneric.

(** X8.  On exact numbers, with a smoothing factor between 0 and 1, the
    accepted centre lies between the previous centre and the new
    estimate: the blend never overshoots.  The factor 0.7 of the
    constructor is such a factor. *)
Theorem blend_between (self : LaneDetector (F := Q)) (fr : Frame)
    (ls : option (list Line)) (l e : Q) :
  0 <= smoothing_factor self <= 1 ->
  last_lane_center self = Some l ->
  new_estimate fr ls = Some e ->
  exists c,
    lane_center (fst (_calculate_drift self fr ls)) = Some c
    /\ last_lane_center (snd (_calculate_drift self fr ls)) = Some c
    /\ (l <= e -> l <= c <= e)
    /\ (e <= l -> e <= c <= l).
Proof.
  intros [S0 S1] L E.
  destruct (drift_blends self fr ls L E) as [C D].
  exists (blend (smoothing_factor self) l e).
  rewrite D. split; [exact C|]. split; [reflexivity|].
  unfold blend, lit. cbn [add sub mul of_Z Q_Arith].
  set (s := smoothing_factor self) in *.
  change (inject_Z 1) with 1.
  split; intros O; split; nra.
Qed.

Lemma blend_between_witness :
  exists c : Q,
    lane_center (fst (_calculate_drift
                        (mkLaneDetector (50 : Q) (Some 300) (dec 7 10))
                        (mkFrame 1280 (Some (Some [left_sample])) false)
                        (Some [left_sample]))) = Some c
    /\ last_lane_center (snd (_calculate_drift
                                (mkLaneDetector (50 : Q) (Some 300) (dec 7 10))
                                (mkFrame 1280 (Some (Some [left_sample])) false)
                                (Some [left_sample]))) = Some c
    /\ (300 <= (800 # 2) -> 300 <= c <= (800 # 2))
    /\ ((800 # 2) <= 300 -> (800 # 2) <= c <= 300).
Proof.
  refine (@blend_between (mkLaneDetector (50 : Q) (Some 300) (dec 7 10))
            (mkFrame 1280 (Some (Some [left_sample])) false)
            (Some [left_sample]) 300 (800 # 2) _ _ _).
  - split; vm_compute; discriminate.
  - reflexivity.
  - reflexivity.
Defined.

Lemma blend_gap_Q (s l e E : Q) :
  e == E -> blend s l e - E == s * (l - E).
Proof.
  intros H. unfold blend, lit. cbn [add sub mul of_Z Q_Arith].
  change (inject_Z 1) with 1. rewrite H. ring.
Qed.

(** X9.  On exact numbers, while the estimate stays at [E] the distance
    of the stored centre from [E] is multiplied by the smoothing factor
    on every frame: after [n] frames it is [smoothing_factor ^ n] times
    the distance at the start. *)
Theorem constant_estimate_converges (E : Q)
    (inputs : list (Frame * option (list Line))) :
  forall (self : LaneDetector (F := Q)) (l0 : Q),
    last_lane_center self = Some l0 ->
    Forall (fun i => exists e, new_estimate (fst i) (snd i) = Some e /\ e == E)
      inputs ->
    exists l,
      last_lane_center (snd (drift_all self inputs)) = Some l
      /\ l - E == smoothing_factor self ^ Z.of_nat (length inputs) * (l0 - E).
Proof.
  induction inputs as [|[fr ls] rest IH]; intros self l0 L HI.
  - exists l0. split; [exact L|]. cbn. ring.
  - inversion HI as [|i rest' [e [He Ee]] HR]; subst. cbn [fst snd] in He.
    destruct (drift_blends self fr ls L He) as [_ D].
    cbn [drift_all].
    destruct (_calculate_drift self fr ls) as [r d]. cbn [snd] in D.
    destruct (IH d (blend (smoothing_factor self) l0 e)) as [l [Hl G]];
      [subst d; reflexivity|exact HR|].
    destruct (drift_all d rest) as [rs d']. cbn [snd] in *.
    exists l. split; [exact Hl|].
    rewrite G. subst d. cbn [smoothing_factor].
    rewrite (blend_gap_Q (smoothing_factor self) l0 Ee).
    cbn [length]. rewrite Nat2Z.inj_succ, <- Z.add_1_r.
    rewrite Qpower_plus' by lia.
    change (smoothing_factor self ^ 1) with (smoothing_factor self).
    ring.
Qed.

Lemma constant_estimate_converges_witness :
  exists l : Q,
    last_lane_center
      (snd (drift_all (mkLaneDetector (50 : Q) (Some 300) (dec 7 10))
              [(mkFrame 1280 (Some (Some [left_sample])) false,
                Some [left_sample]);
               (mkFrame 1280 (Some (Some [left_sample])) false,
                Some [left_sample])])) = Some l
    /\ l - 400 == dec 7 10 ^ 2 * (300 - 400).
Proof.
  refine (@constant_estimate_converges 400
            [(mkFrame 1280 (Some (Some [left_sample])) false,
              Some [left_sample]);
             (mkFrame 1280 (Some (Some [left_sample])) false,
              Some [left_sample])]
            (mkLaneDetector (50 : Q) (Some 300) (dec 7 10)) 300 _ _).
  - reflexivity.
  - repeat constructor; (eexists; split; [reflexivity|reflexivity]).
Defined.

(** ** The alert machine over whole runs *)

Section AlertRuns.

Context {F : Type} {A : Arith F}.
Local Open Scope num_scope.

Lemma count_commands_cons (p : Command F -> bool) (cmds : list (Command F))
    (run : list (list (Command F))) :
  count_commands p (cmds :: run)
  = (length (filter p cmds) + count_commands p run)%nat.
Proof.
  unfold count_commands. cbn [concat]. now rewrite filter_app, length_app.
Qed.

Lemma drive_accounting (frames : list Obs) :
  forall a : LaneDepartureAlert (F := F),
    (count_commands is_beep (fst (drive a frames))
     + (if last_departure_state a then 1 else 0)
     = count_commands is_stop (fst (drive a frames))
       + (if last_departure_state (snd (drive a frames)) then 1 else 0))%nat
    /\ Forall (fun cmds => (length cmds <= 1)%nat) (fst (drive a frames)).
Proof.
  induction frames as [|o rest IH]; intros a.
  - split; [reflexivity|constructor].
  - cbn [drive].
    assert (S : (length (filter is_beep
                   (fst (process_departure a (obs_off_lane o) (obs_time o)
                           (obs_alive o))))
                 + (if last_departure_state a then 1 else 0)
                 = length (filter is_stop
                     (fst (process_departure a (obs_off_lane o) (obs_time o)
                             (obs_alive o))))
                   + (if obs_off_lane o then 1 else 0))%nat
                /\ (length (fst (process_departure a (obs_off_lane o)
                                   (obs_time o) (obs_alive o))) <= 1)%nat).
    { unfold process_departure.
      destruct (obs_off_lane o), (last_departure_state a),
        (escalation_due a (obs_time o)), (obs_alive o); cbn; lia. }
    pose proof (process_departure_last a (obs_off_lane o) (obs_time o)
                  (obs_alive o)) as L.
    destruct (process_departure a _ _ _) as [cmds a1]. cbn [fst snd] in *.
    destruct (IH a1) as [IH1 IH2].
    destruct (drive a1 rest) as [more a2]. cbn [fst snd] in *.
    rewrite !count_commands_cons. rewrite L in IH1.
    split; [lia|constructor; tauto].
Qed.

(** X10.  In every run from the constructor each frame issues at most
    one command, and the [play_beep] calls and the
    [stop_continuous_alert] calls alternate: there are as many beeps as
    stops, plus one while a departure is in progress. *)
Theorem beeps_and_stops_balance (frames : list (Obs (F := F))) :
  let run := fst (drive LaneDepartureAlert_init frames) in
  let a := snd (drive LaneDepartureAlert_init frames) in
  Forall (fun cmds => (length cmds <= 1)%nat) run
  /\ count_commands is_beep run
     = (count_commands is_stop run
        + (if last_departure_state a then 1 else 0))%nat.
Proof.
  intros run a. subst run a.
  destruct (drive_accounting frames LaneDepartureAlert_init) as [B L].
  cbn [last_departure_state LaneDepartureAlert_init] in B.
  split; [exact L|lia].
Qed.

(** X11.  During a departure that began at [t0] the start time is never
    moved, and a frame issues [play_continuous_alert(5.0)] exactly when
    the escalation test holds and the sink's thread is not alive - on
    every such frame, not only on the first. *)
Theorem escalation_repeats_while_thread_dead (t0 thr : F)
    (frames : list (Obs (F := F))) :
  Forall (fun o => obs_off_lane o = true) frames ->
  drive (mkLaneDepartureAlert true (Some t0) thr) frames
  = (map (fun o => if truthy t0 && (obs_time o - t0 >? thr)
                      && negb (obs_alive o)
                   then [play_continuous_alert (lit 5)] else []) frames,
     mkLaneDepartureAlert true (Some t0) thr).
Proof.
  induction 1 as [|o rest D _ IH]; [reflexivity|].
  cbn [drive map]. unfold process_departure at 1, escalation_due.
  cbn [last_departure_state departure_start_time continuous_alert_threshold].
  rewrite D. cbn [negb].
  destruct (truthy t0 && (obs_time o - t0 >? thr)), (obs_alive o);
    cbn [negb andb]; rewrite IH; reflexivity.
Qed.

(** X12.  [play_beep()] honours the cooldown: in a series of calls that
    are not forced, no beep sounds within [alert_cooldown] of the beep
    before it (or of [last_alert_time] at the start), and a sink whose
    mixer failed to initialise never beeps. *)
Theorem beeps_respect_cooldown (cfg : AudioAlert (F := F))
    (times : list F) :
  forall self : SinkState,
    cooldown_separated (alert_cooldown cfg) (last_alert_time self)
      (beep_times cfg self times)
    /\ (is_initialized self = false -> beep_times cfg self times = []).
Proof.
  induction times as [|t rest IH]; intros self; [split; [exact I|reflexivity]|].
  cbn [beep_times]. unfold AudioAlert_play_beep.
  destruct (is_initialized self) eqn:Init; cbn [negb].
  - cbn [andb negb].
    destruct (t - last_alert_time self <? alert_cooldown cfg) eqn:C.
    + split; [apply IH|discriminate].
    + split; [|discriminate]. cbn [cooldown_separated]. split; [exact C|].
      apply (IH (mkSinkState true t true (stop_alert self))).
  - split; [apply IH|]. intros _. now apply IH.
Qed.

(** X13.  [cleanup] may be called again (as [__del__] does): the second
    call changes nothing.  After it the sink is marked uninitialised with
    the stop flag set, and [play_beep] refuses even a forced beep. *)
Theorem cleanup_idempotent_and_final (cfg : AudioAlert (F := F))
    (self : SinkState) (force : bool) (now : F) :
  AudioAlert_cleanup (AudioAlert_cleanup self) = AudioAlert_cleanup self
  /\ is_initialized (AudioAlert_cleanup self) = false
  /\ stop_alert (AudioAlert_cleanup self) = true
  /\ AudioAlert_play_beep cfg (AudioAlert_cleanup self) force now
     = (false, AudioAlert_cleanup self)
  /\ AudioAlert_play_continuous_alert (AudioAlert_cleanup self)
     = AudioAlert_cleanup self.
Proof.
  unfold AudioAlert_cleanup, AudioAlert_stop_continuous_alert,
    AudioAlert_play_beep, AudioAlert_play_continuous_alert.
  destruct self as [init last thread stop]. cbn.
  destruct init; cbn; repeat split; reflexivity.
Qed.

Lemma execute_uninitialized (cfg : AudioAlert (F := F)) (now : F)
    (cmds : list (Command F)) :
  forall sink : SinkState,
    is_initialized sink = false ->
    let sink' := fold_left (AudioAlert_execute cfg now) cmds sink in
    is_initialized sink' = false
    /\ alert_thread sink' = alert_thread sink
    /\ last_alert_time sink' = last_alert_time sink.
Proof.
  induction cmds as [|c rest IH]; intros sink U; [cbn; auto|].
  cbn [fold_left].
  assert (S : is_initialized (AudioAlert_execute cfg now sink c) = false
              /\ alert_thread (AudioAlert_execute cfg now sink c)
                 = alert_thread sink
              /\ last_alert_time (AudioAlert_execute cfg now sink c)
                 = last_alert_time sink).
  { destruct c; cbn; unfold AudioAlert_play_beep,
      AudioAlert_play_continuous_alert; rewrite ?U; cbn; auto. }
  destruct S as [S1 [S2 S3]].
  destruct (IH _ S1) as [I1 [I2 I3]].
  cbv zeta. rewrite I2, I3. auto.
Qed.

(** X14.  With a sink whose mixer failed to initialise the machine goes
    on as before: no call ever stores a thread or moves
    [last_alert_time], so the machine sees no live thread and behaves as
    [process_departure] does with a dead thread on every frame. *)
Theorem machine_runs_on_dead_sink (cfg : AudioAlert (F := F))
    (frames : list (Obs (F := F) * F)) :
  forall (self : LaneDepartureAlert) (sink : SinkState),
    is_initialized sink = false ->
    alert_thread sink = false ->
    let result := drive_on_sink cfg self sink frames in
    (fst (fst result), snd (fst result))
    = drive self
        (map (fun i => mkObs (obs_off_lane (fst i)) (obs_time (fst i)) false)
           frames)
    /\ is_initialized (snd result) = false
    /\ alert_thread (snd result) = false
    /\ last_alert_time (snd result) = last_alert_time sink.
Proof.
  induction frames as [|[o st] rest IH]; intros self sink U T; [cbn; auto|].
  cbn [drive_on_sink map drive obs_off_lane obs_time obs_alive fst].
  unfold process_departure_on_sink. rewrite T. cbn [andb].
  destruct (process_departure self (obs_off_lane o) (obs_time o) false)
    as [cmds a1].
  destruct (execute_uninitialized cfg st cmds sink U) as [U1 [T1 L1]].
  rewrite T in T1.
  specialize (IH a1 _ U1 T1). cbv zeta in IH.
  destruct (drive_on_sink cfg a1 _ rest) as [[more a2] sink2].
  cbn [fst snd] in *. destruct IH as [E [U2 [T2 L2]]].
  destruct (drive a1 _) as [more' a2']. injection E as <- <-.
  repeat split; try assumption. congruence.
Qed.

End AlertRuns.

(** ** The main loop over whole runs *)

Section LoopRuns.

Context {F : Type} {A : Arith F}.
Local Open Scope num_scope.

Lemma detect_lanes_keeps_threshold (d : LaneDetector (F := F))
    (frame : option Frame) :
  departure_threshold (snd (detect_lanes d frame)) = departure_threshold d.
Proof.
  unfold detect_lanes. destruct frame as [fr|]; [|reflexivity].
  destruct (hough_lines fr) as [ls|]; [|reflexivity].
  pose proof (proj2 (calculate_drift_keeps_config d fr ls)) as K.
  destruct (_calculate_drift d fr ls) as [r d']. cbn [snd] in K.
  now destruct (overlay_raises fr).
Qed.

Lemma detect_lanes_processed (d : LaneDetector (F := F))
    (frame : option Frame) :
  processed_frame (fst (detect_lanes d frame)) <> None <->
  match frame with
  | Some fr =>
      match hough_lines fr with
      | Some _ => negb (overlay_raises fr)
      | None => false
      end
  | None => false
  end = true.
Proof.
  unfold detect_lanes. destruct frame as [fr|]; [|cbn; split; congruence].
  destruct (hough_lines fr) as [ls|]; [|cbn; split; congruence].
  destruct (_calculate_drift d fr ls) as [r d'].
  destruct (overlay_raises fr); cbn; split; congruence.
Qed.

(** What a captured frame does to the system before any key is read. *)
Lemma run_iteration_cases (self : OpenLKAS (F := F)) (t : Tick) :
  ret t = true ->
  let det := detect_lanes (lane_detector self) (frame t) in
  let al := process_departure (departure_alert self) (off_lane (fst det))
              (now t) (thread_alive t) in
  let self1 := mkOpenLKAS (threshold self) (show_display self) (snd det)
                 (audio_alert self) (snd al) (frame_count self + 1) in
  snd (fst (run_iteration self t)) = fst al
  /\ (reads_key self t = false ->
      run_iteration self t = (Continue, fst al, self1))
  /\ (reads_key self t = true ->
      run_iteration self t =
        match key t with
        | KeyQ => (Break, fst al, self1)
        | KeyT =>
            let new_threshold :=
              if threshold self <? lit 100
              then threshold self + lit 10 else lit 20 in
            (Continue, fst al,
             mkOpenLKAS new_threshold (show_display self)
               (update_threshold (snd det) new_threshold)
               (audio_alert self) (snd al) (frame_count self + 1))
        | KeyV =>
            let new_volume :=
              if volume (audio_alert self) >? dec 1 2
              then lit 0 else dec 1 2 in
            (Continue, fst al,
             mkOpenLKAS (threshold self) (show_display self) (snd det)
               (update_volume (audio_alert self) new_volume)
               (snd al) (frame_count self + 1))
        | KeyOther => (Continue, fst al, self1)
        end).
Proof.
  intros R det al self1. subst det al self1.
  unfold run_iteration, reads_key. rewrite R. cbn [negb andb].
  pose proof (detect_lanes_processed (lane_detector self) (frame t)) as P.
  destruct (detect_lanes (lane_detector self) (frame t)) as [r d].
  cbn [fst snd] in *.
  destruct (process_departure (departure_alert self) (off_lane r) (now t)
              (thread_alive t)) as [cmds a].
  cbn [fst snd show_display threshold lane_detector audio_alert
       departure_alert frame_count].
  destruct (show_display self); cbn [andb].
  - destruct (processed_frame r) as [pf|].
    + assert (K : match frame t with
                  | Some fr => match hough_lines fr with
                               | Some _ => negb (overlay_raises fr)
                               | None => false
                               end
                  | None => false
                  end = true) by (apply P; discriminate).
      rewrite K. split; [now destruct (key t)|].
      split; [discriminate|]. intros _. now destruct (key t).
    + assert (K : match frame t with
                  | Some fr => match hough_lines fr with
                               | Some _ => negb (overlay_raises fr)
                               | None => false
                               end
                  | None => false
                  end = false).
      { destruct (match frame t with Some _ => _ | None => _ end);
          [|reflexivity]. exfalso. now apply (proj2 P). }
      rewrite K. split; [reflexivity|]. split; [reflexivity|discriminate].
  - split; [now destruct (processed_frame r)|].
    split; [now destruct (processed_frame r)|discriminate].
Qed.

(** X15.  The loop stops on an iteration exactly when the frame was
    captured, the display is on, [detect_lanes] delivered a processed
    frame and the key is [q]; a [q] pressed over a frame that failed, or
    without display, is not even read.  The commands of that last
    iteration are still issued, and later input is ignored. *)
Theorem quit_only_on_displayed_frame (self : OpenLKAS (F := F)) (t : Tick)
    (rest : list Tick) :
  (fst (fst (run_iteration self t)) = Break
   <-> reads_key self t = true /\ key t = KeyQ)
  /\ (fst (fst (run_iteration self t)) = Break ->
      run_loop self (t :: rest)
      = (snd (fst (run_iteration self t)), snd (run_iteration self t))).
Proof.
  split.
  - destruct (ret t) eqn:R.
    + destruct (run_iteration_cases self t R) as [_ [N Y]].
      destruct (reads_key self t) eqn:K.
      * rewrite (Y eq_refl). destruct (key t); cbn; split;
          try tauto; try discriminate; intros [_ H]; discriminate.
      * rewrite (N eq_refl). cbn. split; [discriminate|].
        intros [H _]; discriminate.
    + unfold run_iteration, reads_key. rewrite R. cbn. split; [discriminate|].
      intros [H _]; discriminate.
  - intros B. cbn [run_loop].
    destruct (run_iteration self t) as [[flow cmds] s]. cbn in B. now subst.
Qed.

Lemma run_iteration_sync (self : OpenLKAS (F := F)) (t : Tick) :
  threshold self = departure_threshold (lane_detector self) ->
  threshold (snd (run_iteration self t))
  = departure_threshold (lane_detector (snd (run_iteration self t))).
Proof.
  intros S. destruct (ret t) eqn:R.
  - destruct (run_iteration_cases self t R) as [_ [N Y]].
    pose proof (detect_lanes_keeps_threshold (lane_detector self) (frame t))
      as K.
    destruct (reads_key self t).
    + rewrite (Y eq_refl). destruct (key t); cbn; congruence.
    + rewrite (N eq_refl). cbn. congruence.
  - unfold run_iteration. rewrite R. exact S.
Qed.

(** X16.  The threshold the loop shows and the threshold the detector
    classifies with stay the same value, through every key press and
    every frame. *)
Theorem threshold_stays_in_sync (ticks : list (Tick (F := F))) :
  forall self : OpenLKAS,
    threshold self = departure_threshold (lane_detector self) ->
    threshold (snd (run_loop self ticks))
    = departure_threshold (lane_detector (snd (run_loop self ticks))).
Proof.
  induction ticks as [|t rest IH]; intros self S; [exact S|].
  cbn [run_loop].
  pose proof (run_iteration_sync self t S) as S1.
  destruct (run_iteration self t) as [[flow cmds] s1]. cbn [snd] in S1.
  destruct flow; [|exact S1].
  specialize (IH s1 S1). now destruct (run_loop s1 rest).
Qed.

(** X17.  Without display no key is read: the loop runs through all its
    input, counts exactly the captured frames, and leaves the threshold
    and the audio configuration as they were. *)
Theorem headless_run_reads_no_key (ticks : list (Tick (F := F))) :
  forall self : OpenLKAS,
    show_display self = false ->
    let final := snd (run_loop self ticks) in
    frame_count final
    = (frame_count self + Z.of_nat (length (filter (@ret F) ticks)))%Z
    /\ threshold final = threshold self
    /\ audio_alert final = audio_alert self
    /\ departure_threshold (lane_detector final)
       = departure_threshold (lane_detector self).
Proof.
  induction ticks as [|t rest IH]; intros self D.
  - cbn. repeat split. lia.
  - cbn [run_loop filter].
    destruct (ret t) eqn:R.
    + destruct (run_iteration_cases self t R) as [_ [N _]].
      assert (K : reads_key self t = false).
      { unfold reads_key. rewrite D. now rewrite andb_false_r. }
      rewrite (N K).
      pose proof (detect_lanes_keeps_threshold (lane_detector self) (frame t))
        as T.
      match goal with
      | |- context [run_loop ?s rest] =>
          specialize (IH s D); destruct (run_loop s rest) as [more s2]
      end.
      cbn [fst snd length] in *. destruct IH as [C [T' [A' D']]].
      cbn [frame_count threshold audio_alert lane_detector] in *.
      repeat split; try congruence. lia.
    + unfold run_iteration. rewrite R. cbn [negb].
      specialize (IH self D). destruct (run_loop self rest) as [more s2].
      exact IH.
Qed.

End LoopRuns.

Section LoopKeys.

Context {F : Type} {A : Arith F}.
Local Open Scope num_scope.

Lemma volume_key_step (self : OpenLKAS (F := F)) (t : Tick) :
  (dec 1 2 >? dec (F := F) 1 2) = false ->
  py_max (lit 0) (py_min (lit 1) (dec (F := F) 1 2)) = dec 1 2 ->
  volume (audio_alert self) = dec 1 2 ->
  volume (audio_alert (snd (run_iteration self t))) = dec 1 2.
Proof.
  intros H1 H2 V. destruct (ret t) eqn:R.
  - destruct (run_iteration_cases self t R) as [_ [N Y]].
    destruct (reads_key self t).
    + rewrite (Y eq_refl). destruct (key t); cbn; try exact V.
      rewrite V, H1. exact H2.
    + rewrite (N eq_refl). exact V.
  - unfold run_iteration. rewrite R. exact V.
Qed.

Lemma volume_key_run (ticks : list (Tick (F := F))) :
  (dec 1 2 >? dec (F := F) 1 2) = false ->
  py_max (lit 0) (py_min (lit 1) (dec (F := F) 1 2)) = dec 1 2 ->
  forall self : OpenLKAS,
    volume (audio_alert self) = dec 1 2 ->
    volume (audio_alert (snd (run_loop self ticks))) = dec 1 2.
Proof.
  intros H1 H2. induction ticks as [|t rest IH]; intros self V; [exact V|].
  cbn [run_loop].
  pose proof (volume_key_step self t H1 H2 V) as V1.
  destruct (run_iteration self t) as [[flow cmds] s1]. cbn [snd] in V1.
  destruct flow; [|exact V1].
  specialize (IH s1 V1). now destruct (run_loop s1 rest).
Qed.



End LoopKeys.

(** X19.  The [v] key cannot change the volume the system starts with:
    at 0.5 the test [current_volume > 0.5] fails, so 0.5 is set again.
    This holds on binary64 and on exact numbers, for every run. *)
Theorem volume_key_keeps_default_volume :
  (forall (self : OpenLKAS (F := float)) (ticks : list Tick),
      volume (audio_alert self) = dec 1 2 ->
      volume (audio_alert (snd (run_loop self ticks))) = dec 1 2)
  /\ (forall (self : OpenLKAS (F := Q)) (ticks : list Tick),
        volume (audio_alert self) = dec 1 2 ->
        volume (audio_alert (snd (run_loop self ticks))) = dec 1 2).
Proof.
  split; intros self ticks V; apply volume_key_run; try exact V; reflexivity.
Qed.

Lemma volume_key_keeps_default_volume_witness :
  volume (audio_alert
            (snd (run_loop OpenLKAS_init
                    [mkTick true (Some frame_no_lines) (lit 1000) false KeyV;
                     mkTick true (Some frame_no_lines) (lit 1001) false KeyV])))
  = dec 1 2.
Proof.
  apply (proj1 volume_key_keeps_default_volume OpenLKAS_init).
  reflexivity.
Defined.

Lemma threshold_key_step_Q (self : OpenLKAS (F := Q)) (t : Tick) :
  20 <= threshold self < 110 ->
  20 <= threshold (snd (run_iteration self t)) < 110.
Proof.
  intros B. destruct (ret t) eqn:R.
  - destruct (run_iteration_cases self t R) as [_ [N Y]].
    destruct (reads_key self t).
    + rewrite (Y eq_refl). destruct (key t); cbn [snd threshold]; try exact B.
      cbv zeta. cbn [threshold ltb add Q_Arith].
      destruct (Qltb (threshold self) (lit 100)) eqn:C.
      * apply Qltb_lt in C. change (lit (F := Q) 100) with (100 # 1) in C.
        change (lit (F := Q) 10) with (10 # 1). lra.
      * change (lit (F := Q) 20) with (20 # 1). lra.
    + rewrite (N eq_refl). exact B.
  - unfold run_iteration. rewrite R. exact B.
Qed.

(** X20.  On exact numbers the [t] key keeps the threshold within
    [20, 110): below 100 it adds 10, from 100 on it starts again at 20. *)
Theorem threshold_key_keeps_range (ticks : list (Tick (F := Q))) :
  forall self : OpenLKAS (F := Q),
    20 <= threshold self < 110 ->
    20 <= threshold (snd (run_loop self ticks)) < 110.
Proof.
  induction ticks as [|t rest IH]; intros self B; [exact B|].
  cbn [run_loop].
  pose proof (threshold_key_step_Q self t B) as B1.
  destruct (run_iteration self t) as [[flow cmds] s1]. cbn [snd] in B1.
  destruct flow; [|exact B1].
  specialize (IH s1 B1). now destruct (run_loop s1 rest).
Qed.

(** ** The camera *)

(** X21.  [get_frame] reports success exactly when it hands out a frame,
    and that frame is what the capture read - at once, or, for a demo
    source only, after the rewind.  A camera that is not initialised, or
    has been released, always reports failure; releasing twice is the
    same as releasing once. *)
Theorem get_frame_success_and_release (self : Camera.CameraModule)
    (read1 read2 : option Frame) :
  (fst (Camera.get_frame self read1 read2) = true
   <-> snd (Camera.get_frame self read1 read2) <> None)
  /\ (fst (Camera.get_frame self read1 read2) = true ->
      Camera.is_initialized self = true /\ Camera.cap self = true
      /\ (snd (Camera.get_frame self read1 read2) = read1
          \/ (Camera.source self = Camera.demo /\ read1 = None
              /\ snd (Camera.get_frame self read1 read2) = read2)))
  /\ Camera.get_frame (Camera.release self) read1 read2 = (false, None)
  /\ Camera.release (Camera.release self) = Camera.release self
  /\ (Camera.source self <> Camera.demo ->
      Camera.get_frame self read1 read2 = Camera.get_frame self read1 None).
Proof.
  unfold Camera.get_frame, Camera.release.
  destruct self as [src c init]. cbn.
  destruct init, c, read1 as [f1|], src, read2 as [f2|]; cbn;
    repeat split; intros; try congruence; try discriminate; auto;
    try (right; repeat split; reflexivity).
Qed.

(** ** The stored centre *)

(** X22.  Once [last_lane_center] holds a value it holds one after every
    further sequence of frames, and a frame changes the stored value only
    if it produced an estimate. *)
Theorem last_lane_center_never_cleared (F : Type) (A : Arith F)
    (self : LaneDetector (F := F)) (frames : list (option Frame))
    (frame : option Frame) :
  (last_lane_center self <> None ->
   last_lane_center (snd (detect_all self frames)) <> None)
  /\ (last_lane_center (snd (detect_lanes self frame))
      <> last_lane_center self ->
      exists fr ls e,
        frame = Some fr /\ hough_lines fr = Some ls
        /\ new_estimate fr ls = Some e).
Proof.
  split; [apply detect_all_sticky|].
  unfold detect_lanes.
  destruct frame as [fr|]; [|cbn; intros C; now contradiction C].
  destruct (hough_lines fr) as [ls|] eqn:H;
    [|cbn; intros C; now contradiction C].
  intros C. destruct (new_estimate (F := F) fr ls) as [e|] eqn:E.
  - now exists fr, ls, e.
  - exfalso. apply C.
    pose proof (proj1 (absent_estimate_keeps_detector self fr ls E)) as K.
    destruct (_calculate_drift self fr ls) as [r d]. cbn [snd] in K.
    destruct (overlay_raises fr); cbn [snd]; now rewrite K.
Qed.

(** ** Sample runs of the further properties *)

Lemma last_lane_center_never_cleared_witness :
  last_lane_center
    (snd (detect_all (mkLaneDetector 50%float (Some 400%float) (dec 7 10))
            [Some frame_no_lines; None; Some frame_cv_error])) <> None.
Proof.
  apply (proj1 (@last_lane_center_never_cleared float Float_Arith
                  (mkLaneDetector 50%float (Some 400%float) (dec 7 10))
                  [Some frame_no_lines; None; Some frame_cv_error] None)).
  discriminate.
Defined.

Lemma overlay_failure_keeps_state_update_witness :
  last_lane_center
    (snd (detect_lanes (LaneDetector_init (F := float) (lit 50))
            (Some (mkFrame 1280 (Some (Some [left_sample])) true))))
  = Some (accepted_center (LaneDetector_init (lit 50))
            (mkFrame 1280 (Some (Some [left_sample])) true)
            (Some [left_sample])).
Proof.
  refine (proj1 (proj2
    (@overlay_failure_keeps_state_update float Float_Arith
       (LaneDetector_init (lit 50))
       (mkFrame 1280 (Some (Some [left_sample])) true)
       (Some [left_sample]) 400%float _ _ _))); reflexivity.
Defined.

Lemma departure_only_on_processed_frame_witness :
  processed_frame
    (fst (detect_lanes (LaneDetector_init (F := float) (lit 50))
            (Some frame_right_at_100)))
  = Some frame_right_at_100.
Proof.
  refine (proj1 (proj2
    (@departure_only_on_processed_frame float Float_Arith
       (LaneDetector_init (lit 50)) (Some frame_right_at_100) _))).
  reflexivity.
Defined.

Lemma detection_loss_holds_center_witness :
  last_lane_center
    (snd (detect_all (mkLaneDetector 50%float (Some 400%float) (dec 7 10))
            [Some frame_no_lines; None; Some frame_no_lines]))
  = Some 400%float.
Proof.
  refine (proj1
    (@detection_loss_holds_center float Float_Arith
       (mkLaneDetector 50%float (Some 400%float) (dec 7 10))
       [Some frame_no_lines; None; Some frame_no_lines] _)).
  repeat constructor.
Defined.

Lemma escalation_repeats_while_thread_dead_witness :
  fst (drive (mkLaneDepartureAlert true (Some 1000%float) 2%float)
         [mkObs true (dec 10030 10) false;
          mkObs true (dec 10031 10) true;
          mkObs true (dec 10032 10) false])
  = [[play_continuous_alert 5%float]; []; [play_continuous_alert 5%float]].
Proof.
  refine (f_equal fst
    (@escalation_repeats_while_thread_dead float Float_Arith
       1000%float 2%float
       [mkObs true (dec 10030 10) false;
        mkObs true (dec 10031 10) true;
        mkObs true (dec 10032 10) false] _)).
  repeat constructor.
Defined.

Lemma beeps_respect_cooldown_witness :
  beep_times (AudioAlert_init (F := float) 800 (dec 3 10) (dec 1 2) (lit 1))
    (SinkState_init false) [lit 1000; lit 1001] = [].
Proof.
  apply (proj2 (@beeps_respect_cooldown float Float_Arith
                  (AudioAlert_init 800 (dec 3 10) (dec 1 2) (lit 1))
                  [lit 1000; lit 1001] (SinkState_init false))).
  reflexivity.
Defined.

Lemma machine_runs_on_dead_sink_witness :
  alert_thread
    (snd (drive_on_sink
            (AudioAlert_init (F := float) 800 (dec 3 10) (dec 1 2) (lit 1))
            LaneDepartureAlert_init (SinkState_init false)
            [(mkObs true (lit 1000) true, lit 1000);
             (mkObs true (lit 1003) true, lit 1003)]))
  = false.
Proof.
  refine (proj1 (proj2 (proj2
    (@machine_runs_on_dead_sink float Float_Arith
       (AudioAlert_init 800 (dec 3 10) (dec 1 2) (lit 1))
       [(mkObs true (lit 1000) true, lit 1000);
        (mkObs true (lit 1003) true, lit 1003)]
       LaneDepartureAlert_init (SinkState_init false) _ _)))); reflexivity.
Defined.

Lemma quit_only_on_displayed_frame_witness :
  run_loop OpenLKAS_init
    [mkTick true (Some frame_no_lines) (lit 1000) false KeyQ; failed_tick]
  = (snd (fst (run_iteration OpenLKAS_init
                 (mkTick true (Some frame_no_lines) (lit 1000) false KeyQ))),
     snd (run_iteration OpenLKAS_init
            (mkTick true (Some frame_no_lines) (lit 1000) false KeyQ))).
Proof.
  apply (proj2 (@quit_only_on_displayed_frame float Float_Arith OpenLKAS_init
                  (mkTick true (Some frame_no_lines) (lit 1000) false KeyQ)
                  [failed_tick])).
  reflexivity.
Defined.

Lemma threshold_stays_in_sync_witness :
  threshold
    (snd (run_loop OpenLKAS_init
            [mkTick true (Some frame_no_lines) (lit 1000) false KeyT;
             mkTick true (Some frame_no_lines) (lit 1001) false KeyT]))
  = departure_threshold
      (lane_detector
         (snd (run_loop OpenLKAS_init
                 [mkTick true (Some frame_no_lines) (lit 1000) false KeyT;
                  mkTick true (Some frame_no_lines) (lit 1001) false KeyT]))).
Proof.
  apply (@threshold_stays_in_sync float Float_Arith
           [mkTick true (Some frame_no_lines) (lit 1000) false KeyT;
            mkTick true (Some frame_no_lines) (lit 1001) false KeyT]
           OpenLKAS_init).
  reflexivity.
Defined.

Lemma headless_run_reads_no_key_witness :
  threshold
    (snd (run_loop
            (mkOpenLKAS (lit 50) false (LaneDetector_init (lit 50))
               (AudioAlert_init 800 (dec 3 10) (dec 1 2) (lit 1))
               LaneDepartureAlert_init 0)
            [mkTick true (Some frame_no_lines) (lit 1000) false KeyQ;
             failed_tick;
             mkTick true (Some frame_no_lines) (lit 1001) false KeyT]))
  = lit (F := float) 50.
Proof.
  refine (proj1 (proj2
    (@headless_run_reads_no_key float Float_Arith
       [mkTick true (Some frame_no_lines) (lit 1000) false KeyQ;
        failed_tick;
        mkTick true (Some frame_no_lines) (lit 1001) false KeyT]
       (mkOpenLKAS (lit 50) false (LaneDetector_init (lit 50))
          (AudioAlert_init 800 (dec 3 10) (dec 1 2) (lit 1))
          LaneDepartureAlert_init 0) _))).
  reflexivity.
Defined.


Lemma threshold_key_keeps_range_witness :
  20 <= threshold
          (snd (run_loop
                  (mkOpenLKAS (100 : Q) true (LaneDetector_init 100)
                     (AudioAlert_init 800 (3 # 10) (1 # 2) 1)
                     LaneDepartureAlert_init 0)
                  [mkTick true (Some frame_no_lines) 1000 false KeyT]))
  < 110.
Proof.
  apply (@threshold_key_keeps_range
           [mkTick true (Some frame_no_lines) 1000 false KeyT]
           (mkOpenLKAS (100 : Q) true (LaneDetector_init 100)
              (AudioAlert_init 800 (3 # 10) (1 # 2) 1)
              LaneDepartureAlert_init 0)).
  split; [discriminate|reflexivity].
Defined.

Lemma get_frame_success_and_release_witness :
  Camera.is_initialized (Camera.mkCameraModule Camera.demo true true) = true
  /\ Camera.cap (Camera.mkCameraModule Camera.demo true true) = true
  /\ (snd (Camera.get_frame (Camera.mkCameraModule Camera.demo true true)
             None (Some frame_no_lines)) = None
      \/ (Camera.source (Camera.mkCameraModule Camera.demo true true)
          = Camera.demo
          /\ @None Frame = None
          /\ snd (Camera.get_frame (Camera.mkCameraModule Camera.demo true true)
                    None (Some frame_no_lines)) = Some frame_no_lines)).
Proof.
  apply (proj1 (proj2
    (get_frame_success_and_release
       (Camera.mkCameraModule Camera.demo true true)
       None (Some frame_no_lines)))).
  reflexivity.
Defined.
